(** * claimcoins.py: the per-account claim pipeline

    A shallow embedding of [safe_json], [make_session], [login_and_claim]
    and of the collection loop of [main], with the remote service, the
    clock and the interpreter's formatting primitives gathered in a
    [Runtime] record.  Python values decoded from JSON are an inductive
    type, Python exceptions are values of a small error-and-state monad
    in which the mutations done before a [raise] survive it, exactly as
    the mutations of the [out] dictionary survive in the source. *)

From Stdlib Require Import ZArith String Ascii List.
From Stdlib Require Import SpecFloat.
From stdpp Require Import base tactics option list strings pretty gmap.

Set Warnings "-register-all".

Local Open Scope string_scope.
Local Open Scope Z_scope.
Local Open Scope list_scope.

(** ** MD5 (RFC 1321), as [hashlib.md5(...).hexdigest()] computes it. *)

Module Md5.

Definition w32 (x : Z) : Z := x mod 2 ^ 32.

Definition add32 (x y : Z) : Z := w32 (x + y).

Definition not32 (x : Z) : Z := Z.lxor x 0xffffffff.

Definition rotl32 (x n : Z) : Z :=
  Z.lor (w32 (Z.shiftl x n)) (Z.shiftr x (32 - n)).

(** [floor (2^32 * abs (sin (i + 1)))] for [i] in [0..63]. *)
Definition K : list Z :=
  [ 0xd76aa478; 0xe8c7b756; 0x242070db; 0xc1bdceee;
    0xf57c0faf; 0x4787c62a; 0xa8304613; 0xfd469501;
    0x698098d8; 0x8b44f7af; 0xffff5bb1; 0x895cd7be;
    0x6b901122; 0xfd987193; 0xa679438e; 0x49b40821;
    0xf61e2562; 0xc040b340; 0x265e5a51; 0xe9b6c7aa;
    0xd62f105d; 0x02441453; 0xd8a1e681; 0xe7d3fbc8;
    0x21e1cde6; 0xc33707d6; 0xf4d50d87; 0x455a14ed;
    0xa9e3e905; 0xfcefa3f8; 0x676f02d9; 0x8d2a4c8a;
    0xfffa3942; 0x8771f681; 0x6d9d6122; 0xfde5380c;
    0xa4beea44; 0x4bdecfa9; 0xf6bb4b60; 0xbebfbc70;
    0x289b7ec6; 0xeaa127fa; 0xd4ef3085; 0x04881d05;
    0xd9d4d039; 0xe6db99e5; 0x1fa27cf8; 0xc4ac5665;
    0xf4292244; 0x432aff97; 0xab9423a7; 0xfc93a039;
    0x655b59c3; 0x8f0ccc92; 0xffeff47d; 0x85845dd1;
    0x6fa87e4f; 0xfe2ce6e0; 0xa3014314; 0x4e0811a1;
    0xf7537e82; 0xbd3af235; 0x2ad7d2bb; 0xeb86d391 ].

(** Per-round left-rotation amounts. *)
Definition S : list Z :=
  [ 7; 12; 17; 22; 7; 12; 17; 22; 7; 12; 17; 22; 7; 12; 17; 22;
    5;  9; 14; 20; 5;  9; 14; 20; 5;  9; 14; 20; 5;  9; 14; 20;
    4; 11; 16; 23; 4; 11; 16; 23; 4; 11; 16; 23; 4; 11; 16; 23;
    6; 10; 15; 21; 6; 10; 15; 21; 6; 10; 15; 21; 6; 10; 15; 21 ].

Definition bytes_of_string (s : string) : list Z :=
  (fun a => Z.of_N (N_of_ascii a)) <$> list_ascii_of_string s.

(** The [n] low bytes of [x], least significant first. *)
Fixpoint le_bytes (n : nat) (x : Z) : list Z :=
  match n with
  | O => []
  | Datatypes.S n' => x mod 256 :: le_bytes n' (x / 256)
  end.

Fixpoint le_word (bs : list Z) : Z :=
  match bs with
  | [] => 0
  | b :: bs' => b + 256 * le_word bs'
  end.

(** A [1] bit, zeros up to 56 modulo 64, then the bit length on 64 bits. *)
Definition pad (msg : list Z) : list Z :=
  let len := Z.of_nat (length msg) in
  let zeros := Z.to_nat ((55 - len) mod 64) in
  msg ++ 0x80 :: replicate zeros 0 ++ le_bytes 8 ((8 * len) mod 2 ^ 64).

(** Consecutive groups of [n] items; [fuel] bounds the number of groups. *)
Fixpoint chunks {A} (fuel n : nat) (l : list A) : list (list A) :=
  match fuel, l with
  | O, _ | _, [] => []
  | Datatypes.S fuel', _ => take n l :: chunks fuel' n (drop n l)
  end.

Definition words (block : list Z) : list Z :=
  le_word <$> chunks 16 4 block.

Definition state : Type := Z * Z * Z * Z.

Definition step (M : list Z) (st : state) (i : nat) : state :=
  let '(A, B, C, D) := st in
  let iz := Z.of_nat i in
  let '(F, g) :=
    if iz <? 16 then (Z.lor (Z.land B C) (Z.land (not32 B) D), iz)
    else if iz <? 32 then
      (Z.lor (Z.land D B) (Z.land (not32 D) C), (5 * iz + 1) mod 16)
    else if iz <? 48 then (Z.lxor (Z.lxor B C) D, (3 * iz + 5) mod 16)
    else (Z.lxor C (Z.lor B (not32 D)), (7 * iz) mod 16) in
  let F' := add32 (add32 (add32 F A) (K !!! i)) (M !!! Z.to_nat g) in
  (D, add32 B (rotl32 F' (S !!! i)), B, C).

Definition compress (h : state) (block : list Z) : state :=
  let '(a0, b0, c0, d0) := h in
  let '(A, B, C, D) := foldl (step (words block)) h (seq 0 64) in
  (add32 a0 A, add32 b0 B, add32 c0 C, add32 d0 D).

Definition init : state := (0x67452301, 0xefcdab89, 0x98badcfe, 0x10325476).

Definition digest (msg : list Z) : list Z :=
  let padded := pad msg in
  let '(a, b, c, d) := foldl compress init (chunks (length padded) 64 padded) in
  le_bytes 4 a ++ le_bytes 4 b ++ le_bytes 4 c ++ le_bytes 4 d.

Definition hex_digit (d : Z) : ascii :=
  if d <? 10 then ascii_of_N (Z.to_N (48 + d)) else ascii_of_N (Z.to_N (87 + d)).

Fixpoint hex (bs : list Z) : string :=
  match bs with
  | [] => EmptyString
  | b :: bs' => String (hex_digit (b / 16)) (String (hex_digit (b mod 16)) (hex bs'))
  end.

(** [hashlib.md5(s.encode()).hexdigest()]: a Python [str] is held as the
    byte string of its UTF-8 encoding, so [encode] is the identity on
    the representation and [+] appends. *)
Definition hexdigest (s : string) : string := hex (digest (bytes_of_string s)).

End Md5.

(** ** Python values

    What [json.loads] can return: [None], [bool], [int], [float], [str],
    [list] and [dict] with [str] keys.  A [dict] is the list of its items
    in insertion order; its keys are distinct, and a lookup takes the
    first item that carries the key. *)

Inductive value : Type :=
| PNone
| PBool (b : bool)
| PInt (n : Z)
| PFloat (f : spec_float)
| PStr (s : string)
| PList (xs : list value)
| PDict (items : list (string * value)).

Fixpoint dict_lookup (items : list (string * value)) (k : string) : option value :=
  match items with
  | [] => None
  | (k', v) :: items' => if String.eqb k' k then Some v else dict_lookup items' k
  end.

(** [bool(v)], the test behind [not v]. *)
Definition truthy (v : value) : bool :=
  match v with
  | PNone => false
  | PBool b => b
  | PInt n => negb (n =? 0)
  | PFloat (S754_zero _) => false
  | PFloat _ => true
  | PStr s => negb (String.eqb s EmptyString)
  | PList xs => match xs with [] => false | _ => true end
  | PDict items => match items with [] => false | _ => true end
  end.

(** [v == s] for a [str] literal [s]. *)
Definition eq_str (v : value) (s : string) : bool :=
  match v with
  | PStr s' => String.eqb s' s
  | _ => false
  end.

Definition type_name (v : value) : string :=
  match v with
  | PNone => "NoneType"
  | PBool _ => "bool"
  | PInt _ => "int"
  | PFloat _ => "float"
  | PStr _ => "str"
  | PList _ => "list"
  | PDict _ => "dict"
  end.

(** The code points of a [str] held as UTF-8 bytes: a byte [10xxxxxx]
    continues the code point of the byte before it.  The first component
    is the run of continuation bytes at the very start. *)
Definition is_continuation (a : ascii) : bool :=
  let n := Z.of_N (N_of_ascii a) in (128 <=? n) && (n <? 192).

Fixpoint split_chars (s : string) : string * list string :=
  match s with
  | EmptyString => (EmptyString, [])
  | String a s' =>
      let '(cont, cs) := split_chars s' in
      if is_continuation a then (String a cont, cs)
      else (EmptyString, String a cont :: cs)
  end.

Definition chars (s : string) : list string := (split_chars s).2.

(** ** Exceptions

    Every exception that the modelled operations raise derives from
    [Exception]: the request errors of [requests] (connection errors,
    timeouts, exhausted retries, [HTTPError], its [JSONDecodeError]) and
    the built-in [ValueError], [AttributeError], [TypeError] and
    [UnboundLocalError].  [KeyboardInterrupt] and [SystemExit], which an
    [except Exception] clause lets through, are not modelled. *)

Inductive exn_class : Type :=
| RequestException
| HTTPError
| JSONDecodeError
| ValueError
| AttributeError
| TypeError
| UnboundLocalError.

Record exn : Type := Exn { exn_class_of : exn_class; exn_msg : string }.

(** [str(e)] *)
Definition exn_str (e : exn) : string := exn_msg e.

Inductive result (A : Type) : Type :=
| Ok (a : A)
| Raise (e : exn).

Arguments Ok {A} a.
Arguments Raise {A} e.

(** [d.get(k, default)]: only a [dict] has the attribute. *)
Definition py_get (d : value) (k : string) (default : value) : result value :=
  match d with
  | PDict items => Ok (from_option id default (dict_lookup items k))
  | _ => Raise (Exn AttributeError
                  ("'" +:+ type_name d +:+ "' object has no attribute 'get'"))
  end.

(** The items that [for x in v] visits. *)
Definition py_iter (v : value) : result (list value) :=
  match v with
  | PList xs => Ok xs
  | PDict items => Ok (PStr <$> items.*1)
  | PStr s => Ok (PStr <$> chars s)
  | _ => Raise (Exn TypeError ("'" +:+ type_name v +:+ "' object is not iterable"))
  end.

(** ** Responses, sessions and run options *)

(** A [requests.Response]: [json_body] is what [resp.json()] returns,
    [None] when it raises because the body does not decode. *)
Record response : Type := Response {
  status_code : Z;
  reason : string;
  url : string;
  text : string;
  json_body : option value;
}.

Definition resp_json (resp : response) : result value :=
  match json_body resp with
  | Some v => Ok v
  | None => Raise (Exn JSONDecodeError "Expecting value: line 1 column 1 (char 0)")
  end.

(** [Response.raise_for_status] of [requests]: an [HTTPError] for the
    client errors 400..499 and the server errors 500..599, nothing for
    any other status. *)
Definition http_error_msg (resp : response) : option string :=
  if (400 <=? status_code resp) && (status_code resp <? 500) then
    Some (pretty (status_code resp) +:+ " Client Error: " +:+ reason resp
          +:+ " for url: " +:+ url resp)
  else if (500 <=? status_code resp) && (status_code resp <? 600) then
    Some (pretty (status_code resp) +:+ " Server Error: " +:+ reason resp
          +:+ " for url: " +:+ url resp)
  else None.

Definition raise_for_status_result (resp : response) : result unit :=
  match http_error_msg resp with
  | Some msg => Raise (Exn HTTPError msg)
  | None => Ok tt
  end.

(** The [Retry] policy mounted on the session. *)
Record retry : Type := Retry {
  total : Z;
  backoff_factor : spec_float;
  status_forcelist : list Z;
  allowed_methods : list string;
}.

Record session : Type := Session {
  max_retries : retry;
  headers : gmap string string;
}.

(** The attributes of [cfg] (class [C] of [main]). *)
Record config : Type := Config {
  sales_id : string;
  timeout : Z;
  retries : Z;
  backoff : spec_float;
  password : string;
}.

Record credential : Type := Credential { cred_phone : string; cred_code : string }.

Definition BASE : string := "https://www.bounty-news.com/api".
Definition LOGIN : string := BASE +:+ "/member/login".
Definition DAILY_INFO : string := BASE +:+ "/memberReadingReward/info".
Definition DAILY_CLAIM : string := BASE +:+ "/memberReadingReward/getAward".

Definition make_session (cfg : config) : session :=
  {| max_retries :=
       {| total := retries cfg;
          backoff_factor := backoff cfg;
          status_forcelist := [429; 500; 502; 503; 504];
          allowed_methods := ["GET"; "POST"] |};
     headers :=
       <["salesPersonId" := sales_id cfg]>
         (<["Accept" := "application/json"]>
            (<["Content-Type" := "application/json"]> ∅)) |}.

(** ** The [out] dictionary

    The keys of [out] are fixed by the code, so [out] is a record; a key
    that the code sets only on some paths is an [option], [None] when
    the key is absent. *)

Record claim_attempt : Type := ClaimAttempt {
  ca_tier : value;
  ca_status_code : Z;
  ca_response : value;
}.

Record error_record : Type := ErrorRecord {
  stage : string;
  error : string;
  trace : string;
  err_response : option value;
}.

Record outcome : Type := Outcome {
  phone : string;
  ts : string;
  errors : list error_record;
  login_status_code : option Z;
  login_response : option value;
  info_status_code : option Z;
  info_response : option value;
  claim_responses : option (list claim_attempt);
  claimed_tiers : option (list value);
}.

Definition new_out (phone ts : string) : outcome :=
  Outcome phone ts [] None None None None None None.

(** [out["errors"].append(e)] *)
Definition append_error (e : error_record) (o : outcome) : outcome :=
  Outcome (phone o) (ts o) (errors o ++ [e]) (login_status_code o)
    (login_response o) (info_status_code o) (info_response o)
    (claim_responses o) (claimed_tiers o).

Definition set_login_status_code (code : Z) (o : outcome) : outcome :=
  Outcome (phone o) (ts o) (errors o) (Some code) (login_response o)
    (info_status_code o) (info_response o) (claim_responses o) (claimed_tiers o).

Definition set_login_response (body : value) (o : outcome) : outcome :=
  Outcome (phone o) (ts o) (errors o) (login_status_code o) (Some body)
    (info_status_code o) (info_response o) (claim_responses o) (claimed_tiers o).

Definition set_info_status_code (code : Z) (o : outcome) : outcome :=
  Outcome (phone o) (ts o) (errors o) (login_status_code o) (login_response o)
    (Some code) (info_response o) (claim_responses o) (claimed_tiers o).

Definition set_info_response (body : value) (o : outcome) : outcome :=
  Outcome (phone o) (ts o) (errors o) (login_status_code o) (login_response o)
    (info_status_code o) (Some body) (claim_responses o) (claimed_tiers o).

(** [out.setdefault("claim_responses", []).append(a)] *)
Definition append_claim_response (a : claim_attempt) (o : outcome) : outcome :=
  Outcome (phone o) (ts o) (errors o) (login_status_code o) (login_response o)
    (info_status_code o) (info_response o)
    (Some (default [] (claim_responses o) ++ [a])) (claimed_tiers o).

Definition set_claimed_tiers (l : list value) (o : outcome) : outcome :=
  Outcome (phone o) (ts o) (errors o) (login_status_code o) (login_response o)
    (info_status_code o) (info_response o) (claim_responses o) (Some l).

(** ** Exceptions and state

    A computation runs on a state and either returns or raises; in both
    cases it hands back the state it reached, so what was mutated before
    a [raise] is still there in the handler. *)

Definition M (St A : Type) : Type := St -> result A * St.

Definition ret {St A} (a : A) : M St A := fun s => (Ok a, s).

Definition raise {St A} (e : exn) : M St A := fun s => (Raise e, s).

Definition lift {St A} (r : result A) : M St A := fun s => (r, s).

Definition bind {St A B} (m : M St A) (k : A -> M St B) : M St B :=
  fun s =>
    match m s with
    | (Ok a, s') => k a s'
    | (Raise e, s') => (Raise e, s')
    end.

(** [try: m  except Exception as e: h e] *)
Definition try_except {St A} (m : M St A) (h : exn -> M St A) : M St A :=
  fun s =>
    match m s with
    | (Ok a, s') => (Ok a, s')
    | (Raise e, s') => h e s'
    end.

Declare Scope py_scope.
Delimit Scope py_scope with py.
Notation "x <- m ;; k" := (bind m (fun x => k))
  (at level 100, m at next level, k at level 200, right associativity) : py_scope.
Notation "m ;; k" := (bind m (fun _ => k))
  (at level 100, k at level 200, right associativity) : py_scope.
Local Open Scope py_scope.

(** [for x in l: body x] *)
Fixpoint for_each {St A} (body : A -> M St unit) (l : list A) : M St unit :=
  match l with
  | [] => ret tt
  | x :: l' => body x ;; for_each body l'
  end.

(** ** The outside world

    [W] is everything outside the interpreter as one pipeline sees it:
    the remote service, the network and the clock.  [post] is
    [Session.post(url, json=..., timeout=...)] with its transport-level
    retries: it returns a response or raises.  The last three fields are
    the interpreter's own formatting of tracebacks, floats and quoted
    strings. *)

Class Runtime : Type := {
  W : Type;
  post : session -> string -> value -> Z -> W -> result response * W;
  now_isoformat : W -> string;
  sleep_random_uniform : W -> W;
  format_exc : exn -> string;
  repr_float : spec_float -> string;
  repr_str : string -> string;
}.

Section Pipeline.

Context {rt : Runtime}.

(** [repr(v)] and [str(v)], the latter being what an f-string inserts. *)
Fixpoint py_repr (v : value) : string :=
  match v with
  | PNone => "None"
  | PBool true => "True"
  | PBool false => "False"
  | PInt n => pretty n
  | PFloat f => repr_float f
  | PStr s => repr_str s
  | PList xs => "[" +:+ String.concat ", " (map py_repr xs) +:+ "]"
  | PDict items =>
      "{" +:+ String.concat ", "
                (map (fun kv => repr_str kv.1 +:+ ": " +:+ py_repr kv.2) items)
      +:+ "}"
  end.

Definition py_str (v : value) : string :=
  match v with
  | PStr s => s
  | _ => py_repr v
  end.

(** One [sess.post]: where, what, and how it ended. *)
Record call : Type := Call {
  call_url : string;
  call_json : value;
  call_result : result response;
}.

(** The frame of one call of [login_and_claim]: the world, the locals
    that outlive an exception ([sess], [out], [rr], [completed]) and, as
    a ghost field, the log of the calls made so far.  [rr] is [None]
    while the local is unbound. *)
Record frame : Type := Frame {
  world : W;
  sess : session;
  out : outcome;
  rr : option response;
  completed : list value;
  posted : list call;
}.

Definition update_out (f : outcome -> outcome) : M frame unit :=
  fun s => (Ok tt, Frame (world s) (sess s) (f (out s)) (rr s) (completed s) (posted s)).

(** [sess.headers.update(items)] *)
Definition update_headers (items : list (string * string)) : M frame unit :=
  fun s =>
    let h := foldl (fun h kv => <[kv.1 := kv.2]> h) (headers (sess s)) items in
    (Ok tt, Frame (world s) (Session (max_retries (sess s)) h) (out s) (rr s)
              (completed s) (posted s)).

Definition bind_rr (r : response) : M frame unit :=
  fun s => (Ok tt, Frame (world s) (sess s) (out s) (Some r) (completed s) (posted s)).

(** Reading the local [rr]; the message is that of CPython 3.11 and
    later. *)
Definition read_rr : M frame response :=
  fun s =>
    match rr s with
    | Some r => (Ok r, s)
    | None =>
        (Raise (Exn UnboundLocalError
                  "cannot access local variable 'rr' where it is not associated with a value"),
         s)
    end.

Definition set_completed (l : list value) : M frame unit :=
  fun s => (Ok tt, Frame (world s) (sess s) (out s) (rr s) l (posted s)).

Definition get_completed : M frame (list value) := fun s => (Ok (completed s), s).

Definition get_out : M frame outcome := fun s => (Ok (out s), s).

(** [sess.post(url, json=payload, timeout=t)] *)
Definition sess_post (url : string) (payload : value) (t : Z) : M frame response :=
  fun s =>
    let '(res, w) := post (sess s) url payload t (world s) in
    (res, Frame w (sess s) (out s) (rr s) (completed s)
            (posted s ++ [Call url payload res])).

(** [time.sleep(random.uniform(0.5, 1.2))] *)
Definition pace : M frame unit :=
  fun s => (Ok tt, Frame (sleep_random_uniform (world s)) (sess s) (out s) (rr s)
                     (completed s) (posted s)).

Definition raise_for_status {St} (resp : response) : M St unit :=
  lift (raise_for_status_result resp).

Definition safe_json {St} (resp : response) : M St value :=
  try_except (lift (resp_json resp))
    (fun _ => ret (PDict [("_raw", PStr (text resp))])).

Definition error_of (stage_name : string) (e : exn) (resp : option value) : error_record :=
  {| stage := stage_name; error := exn_str e; trace := format_exc e;
     err_response := resp |}.

(** Lines 115-130: the body of the first [try]. *)
Definition login_body (cred : credential) (cfg : config) : M frame unit :=
  let pwd := password cfg +:+ cred_code cred in
  let md5 := Md5.hexdigest pwd in
  r <- sess_post LOGIN
         (PDict [("phone", PStr (cred_phone cred)); ("password", PStr md5)])
         (timeout cfg) ;;
  update_out (set_login_status_code (status_code r)) ;;
  login_response <- safe_json r ;;
  update_out (set_login_response login_response) ;;
  raise_for_status r ;;
  res <- lift (py_get login_response "result" (PDict [])) ;;
  token <- lift (py_get res "token" PNone) ;;
  res <- lift (py_get login_response "result" (PDict [])) ;;
  head <- lift (py_get res "tokenHead" PNone) ;;
  res <- lift (py_get login_response "result" (PDict [])) ;;
  uid <- lift (py_get res "sysUserId" PNone) ;;
  if negb (truthy token) || negb (truthy head) then
    raise (Exn ValueError "Missing token/head")
  else
    update_headers [("Authorization", py_str head +:+ " " +:+ py_str token);
                    ("memberInfoId", py_str uid)].

(** Lines 138-142: the body of the second [try]; it returns [info]. *)
Definition fetch_info_body (cfg : config) : M frame value :=
  r <- sess_post DAILY_INFO (PDict []) (timeout cfg) ;;
  update_out (set_info_status_code (status_code r)) ;;
  info <- safe_json r ;;
  update_out (set_info_response info) ;;
  raise_for_status r ;;
  ret info.

(** Lines 156-163: the body of the inner [try]. *)
Definition claim_call (cfg : config) (num : value) : M frame unit :=
  r <- sess_post DAILY_CLAIM (PDict [("workInfoReadingNum", num)]) (timeout cfg) ;;
  bind_rr r ;;
  body <- safe_json r ;;
  update_out (append_claim_response
                {| ca_tier := num; ca_status_code := status_code r;
                   ca_response := body |}) ;;
  raise_for_status r ;;
  c <- get_completed ;;
  set_completed (c ++ [num]).

(** Lines 164-171: the inner handler, which reads [rr]. *)
Definition claim_handler (num : value) (ce : exn) : M frame unit :=
  r <- read_rr ;;
  body <- safe_json r ;;
  update_out (append_error (error_of ("claim_" +:+ py_str num) ce (Some body))).

(** Lines 153-172: one turn of the loop. *)
Definition claim_tier (cfg : config) (tier : value) : M frame unit :=
  st <- lift (py_get tier "memberReadingRewardStatus" PNone) ;;
  if eq_str st "complete" then
    num <- lift (py_get tier "workInfoReadingNum" PNone) ;;
    try_except (claim_call cfg num) (claim_handler num) ;;
    pace
  else ret tt.

(** Lines 151-173: the body of the outer [try]. *)
Definition claim_loop (cfg : config) (info : value) : M frame unit :=
  res <- lift (py_get info "result" (PDict [])) ;;
  tiers <- lift (py_get res "memberReadingRewardDetailVoList" (PList [])) ;;
  items <- lift (py_iter tiers) ;;
  for_each (claim_tier cfg) items ;;
  c <- get_completed ;;
  update_out (set_claimed_tiers c).

(** Lines 149-176. *)
Definition claim_stage (cfg : config) (info : value) : M frame unit :=
  set_completed [] ;;
  try_except (claim_loop cfg info)
    (fun e => update_out (append_error (error_of "claim_loop" e None))).

(** Lines 115-134; [false] stands for the [return out] of the handler. *)
Definition login_stage (cred : credential) (cfg : config) : M frame bool :=
  try_except (login_body cred cfg ;; ret true)
    (fun e => update_out (append_error (error_of "login" e None)) ;; ret false).

(** Lines 137-146; [None] stands for the [return out] of the handler. *)
Definition fetch_info_stage (cfg : config) : M frame (option value) :=
  try_except (info <- fetch_info_body cfg ;; ret (Some info))
    (fun e => update_out (append_error (error_of "fetch_info" e None)) ;; ret None).

(** Lines 114-146: the first two stages. *)
Definition login_and_fetch (cred : credential) (cfg : config) : M frame (option value) :=
  logged_in <- login_stage cred cfg ;;
  if logged_in : bool then fetch_info_stage cfg else ret None.

Definition pipeline (cred : credential) (cfg : config) : M frame outcome :=
  r <- login_and_fetch cred cfg ;;
  match r with
  | Some info => claim_stage cfg info ;; get_out
  | None => get_out
  end.

(** Lines 110-113: the frame when the first [try] is entered. *)
Definition start (cred : credential) (cfg : config) (w : W) : frame :=
  {| world := w;
     sess := make_session cfg;
     out := new_out (cred_phone cred) (now_isoformat w);
     rr := None;
     completed := [];
     posted := [] |}.

Definition login_and_claim (cred : credential) (cfg : config) (w : W) :
  result outcome * frame :=
  pipeline cred cfg (start cred cfg w).

(** ** The collection loop of [main]

    Each worker runs one pipeline on its own view of the world.
    [as_completed] yields the futures in the order [order] in which they
    finish; [fut.result()] returns the worker's value or raises what the
    worker raised. *)

Definition submit_all (cfg : config) (jobs : list (credential * W)) :
  list (result outcome) :=
  (fun job => (login_and_claim job.1 cfg job.2).1) <$> jobs.

Definition as_completed {A} (order : list nat) (futures : list A) : list A :=
  omap (fun i => futures !! i) order.

Fixpoint collect (futures : list (result outcome)) (results : list outcome) :
  result (list outcome) :=
  match futures with
  | [] => Ok results
  | Ok res :: futures' => collect futures' (results ++ [res])
  | Raise e :: _ => Raise e
  end.

Definition main_results (cfg : config) (jobs : list (credential * W))
  (order : list nat) : result (list outcome) :=
  collect (as_completed order (submit_all cfg jobs)) [].

(** [out] when the pipeline of one job ends. *)
Definition outcome_of (cfg : config) (job : credential * W) : outcome :=
  out (login_and_claim job.1 cfg job.2).2.

End Pipeline.

(** ** Reading a run

    Pure observations of a response, of a decoded body and of the call
    log, in which the properties below are stated. *)

(** The body as structured data when it decodes, the raw text under the
    reserved key otherwise. *)
Definition decoded (resp : response) : value :=
  match json_body resp with
  | Some v => v
  | None => PDict [("_raw", PStr (text resp))]
  end.

(** The statuses on which [raise_for_status] raises. *)
Definition error_status (code : Z) : bool := (400 <=? code) && (code <? 600).

Definition status_2xx (code : Z) : bool := (200 <=? code) && (code <? 300).

Definition login_payload (cred : credential) (cfg : config) : value :=
  PDict [("phone", PStr (cred_phone cred));
         ("password", PStr (Md5.hexdigest (password cfg +:+ cred_code cred)))].

Definition claim_payload (num : value) : value := PDict [("workInfoReadingNum", num)].

(** [body["result"][k]] when both levels are there. *)
Definition result_field (body : value) (k : string) : option value :=
  match body with
  | PDict items =>
      match dict_lookup items "result" with
      | Some (PDict res) => dict_lookup res k
      | _ => None
      end
  | _ => None
  end.

(** The login body passes the test of line 125: [result] is a [dict], or
    is absent, and both [token] and [tokenHead] are truthy. *)
Definition login_granted (body : value) : bool :=
  match py_get body "result" (PDict []) with
  | Ok res =>
      match py_get res "token" PNone, py_get res "tokenHead" PNone with
      | Ok token, Ok head => truthy token && truthy head
      | _, _ => false
      end
  | Raise _ => false
  end.

(** The login reply does not let the pipeline past stage 1. *)
Definition login_rejected (res : result response) : Prop :=
  match res with
  | Raise _ => True
  | Ok r => error_status (status_code r) = true \/ login_granted (decoded r) = false
  end.

(** The info reply does not let the pipeline past stage 2. *)
Definition info_rejected (res : result response) : Prop :=
  match res with
  | Raise _ => True
  | Ok r => error_status (status_code r) = true
  end.

(** The tiers that the loop of line 152 visits; none when building the
    list raises. *)
Definition tier_items (info : value) : list value :=
  match py_get info "result" (PDict []) with
  | Ok res =>
      match py_get res "memberReadingRewardDetailVoList" (PList []) with
      | Ok tiers => match py_iter tiers with Ok items => items | Raise _ => [] end
      | Raise _ => []
      end
  | Raise _ => []
  end.

(** The identifier of a tier whose status equals ["complete"]. *)
Definition eligible_num (tier : value) : option value :=
  match tier with
  | PDict items =>
      if eq_str (from_option id PNone (dict_lookup items "memberReadingRewardStatus"))
           "complete"
      then Some (from_option id PNone (dict_lookup items "workInfoReadingNum"))
      else None
  | _ => None
  end.

Definition eligible (items : list value) : list value := omap eligible_num items.

Definition fetched_tiers (o : outcome) : list value :=
  from_option tier_items [] (info_response o).

(** A claim call for tier [nr.1] that ended as [nr.2], and what it leaves
    in [claim_responses] and in [completed]. *)
Definition claim_call_of (nr : value * result response) : call :=
  Call DAILY_CLAIM (claim_payload nr.1) nr.2.

Definition attempt_of (nr : value * result response) : option claim_attempt :=
  match nr.2 with
  | Ok r => Some (ClaimAttempt nr.1 (status_code r) (decoded r))
  | Raise _ => None
  end.

Definition success_of (nr : value * result response) : option value :=
  match nr.2 with
  | Ok r => if error_status (status_code r) then None else Some nr.1
  | Raise _ => None
  end.

Definition is_claim_call (c : call) : bool := String.eqb (call_url c) DAILY_CLAIM.

(** A claim call that leaves nothing in [completed]. *)
Definition failed_call (nr : value * result response) : bool :=
  match success_of nr with
  | Some _ => false
  | None => true
  end.

Definition attempts (o : outcome) : list claim_attempt := default [] (claim_responses o).

Section Replies.

Context {rt : Runtime}.

(** The session once line 127 has added the two headers. *)
Definition authorized (cfg : config) (body : value) : session :=
  let field k := from_option id PNone (result_field body k) in
  {| max_retries := max_retries (make_session cfg);
     headers :=
       <["memberInfoId" := py_str (field "sysUserId")]>
         (<["Authorization" := py_str (field "tokenHead") +:+ " " +:+ py_str (field "token")]>
            (headers (make_session cfg))) |}.

Definition login_reply (cred : credential) (cfg : config) (w : W) : result response * W :=
  post (make_session cfg) LOGIN (login_payload cred cfg) (timeout cfg) w.

Definition info_reply (cfg : config) (body : value) (w : W) : result response * W :=
  post (authorized cfg body) DAILY_INFO (PDict []) (timeout cfg) w.

(** [out] after lines 119-120 and after lines 139-141. *)
Definition logged (cred : credential) (w : W) (r : response) : outcome :=
  set_login_response (decoded r)
    (set_login_status_code (status_code r)
       (new_out (cred_phone cred) (now_isoformat w))).

Definition informed (o : outcome) (r : response) : outcome :=
  set_info_response (decoded r) (set_info_status_code (status_code r) o).

(** The keys of [out] that the claim loop leaves alone. *)
Definition fixed_keys (o : outcome) :
  string * string * option Z * option value * option Z * option value
  * option (list value) :=
  (phone o, ts o, login_status_code o, login_response o, info_status_code o,
   info_response o, claimed_tiers o).

(** [s] is [s0] after the claim calls [rs], in this order. *)
Record extends (s0 s : frame) (rs : list (value * result response)) : Prop := {
  ext_posted : posted s = posted s0 ++ (claim_call_of <$> rs);
  ext_attempts : attempts (out s) = attempts (out s0) ++ omap attempt_of rs;
  ext_completed : completed s = completed s0 ++ omap success_of rs;
  ext_errors : errors (out s0) `prefix_of` errors (out s);
  ext_fixed : fixed_keys (out s) = fixed_keys (out s0);
  ext_sess : sess s = sess s0;
}.

(** The frame in which the outer [try] is entered. *)
Definition entering (s : frame) : frame :=
  {| world := world s; sess := sess s; out := out s; rr := rr s;
     completed := []; posted := posted s |}.

End Replies.

(** ** A scripted world

    The service answers the successive calls with the listed results and
    refuses the connection once the script is exhausted. *)

Definition scripted : Runtime :=
  {| W := list (result response);
     post := fun _ _ _ _ w =>
       match w with
       | [] => (Raise (Exn RequestException "connection refused"), [])
       | r :: w' => (r, w')
       end;
     now_isoformat := fun _ => "2025-01-01T00:00:00";
     sleep_random_uniform := fun w => w;
     format_exc := fun e => "Traceback (most recent call last): " +:+ exn_msg e;
     repr_float := fun _ => "0.0";
     repr_str := fun s => "'" +:+ s +:+ "'" |}.

Definition cred0 : credential := Credential "09582811870" "755".

Definition cfg0 : config :=
  {| sales_id := "232"; timeout := 15; retries := 3;
     backoff := S754_finite false 1 1; password := "password" |}.

Definition reply (code : Z) (body : value) : result response :=
  Ok (Response code "OK" BASE "{}" (Some body)).

Definition timed_out : result response :=
  Raise (Exn RequestException "read timed out").

Definition login_ok_body : value :=
  PDict [("result", PDict [("token", PStr "t0k"); ("tokenHead", PStr "Bearer");
                           ("sysUserId", PInt 42)])].

(** A login body without the member id. *)
Definition login_body_no_uid : value :=
  PDict [("result", PDict [("token", PStr "t0k"); ("tokenHead", PStr "Bearer")])].

Definition tier (num : Z) (status : string) : value :=
  PDict [("workInfoReadingNum", PInt num); ("memberReadingRewardStatus", PStr status)].

Definition info_body (tiers : list value) : value :=
  PDict [("result", PDict [("memberReadingRewardDetailVoList", PList tiers)])].

(** Scripts for the examples: the replies to the login call, the info
    call and the claim calls, in this order. *)

Definition two_complete : value := info_body [tier 1 "complete"; tier 2 "complete"].

(** Login answered without a member id. *)
Definition w_no_uid : list (result response) :=
  [reply 200 login_body_no_uid; reply 200 two_complete; reply 200 PNone; reply 200 PNone].

(** Login answered 304 Not Modified. *)
Definition w_login_304 : list (result response) :=
  [reply 304 login_ok_body; reply 200 two_complete; reply 200 PNone; reply 200 PNone].

(** Login answered 403. *)
Definition w_login_403 : list (result response) :=
  [reply 403 login_ok_body; reply 200 two_complete].

(** Info answered 304 Not Modified. *)
Definition w_info_304 : list (result response) :=
  [reply 200 login_ok_body; reply 304 two_complete; reply 200 PNone; reply 200 PNone].

(** Info answered 503. *)
Definition w_info_503 : list (result response) :=
  [reply 200 login_ok_body; reply 503 two_complete; reply 200 PNone].

(** The first claim answered 304 Not Modified, the second 200. *)
Definition w_claim_304 : list (result response) :=
  [reply 200 login_ok_body; reply 200 two_complete; reply 304 PNone; reply 200 PNone].

(** The first claim times out, the second would be answered 200. *)
Definition w_first_claim_times_out : list (result response) :=
  [reply 200 login_ok_body; reply 200 two_complete; timed_out; reply 200 PNone].

(** The first claim is answered 200, the second times out. *)
Definition w_second_claim_times_out : list (result response) :=
  [reply 200 login_ok_body; reply 200 two_complete; reply 200 PNone; timed_out].

(** The first claim is answered 500, the second 200. *)
Definition w_first_claim_500 : list (result response) :=
  [reply 200 login_ok_body; reply 200 two_complete; reply 500 PNone; reply 200 PNone].

(** A tier list whose second item is not an object. *)
Definition w_malformed_tier : list (result response) :=
  [reply 200 login_ok_body;
   reply 200 (info_body [tier 1 "complete"; PInt 7; tier 3 "complete"]);
   reply 200 PNone; reply 200 PNone].

(** One pending tier and one complete tier. *)
Definition w_pending_and_complete : list (result response) :=
  [reply 200 login_ok_body;
   reply 200 (info_body [tier 1 "pending"; tier 2 "complete"]);
   reply 200 PNone].

(** The run of the first account on a script. *)
Definition run0 (w : list (result response)) : result outcome * frame (rt:=scripted) :=
  login_and_claim (rt:=scripted) cred0 cfg0 w.

(** What a run leaves: the stages of the error records, the tiers and
    statuses of the attempts, the success list and the payloads of the
    claim calls. *)
Definition digest_of (run : result outcome * frame (rt:=scripted)) :
  option (list string * list (value * Z) * option (list value)) * list value :=
  (match run.1 with
   | Ok o => Some (stage <$> errors o,
                   (fun a => (ca_tier a, ca_status_code a)) <$> attempts o,
                   claimed_tiers o)
   | Raise _ => None
   end,
   call_json <$> List.filter is_claim_call (posted run.2)).

(** ** The statements of the specification that the code does not meet

    Each is the statement as worded, at one input. *)

(** One of the three fields that the specification requires of a login
    body is not there. *)
Definition missing_login_field (body : value) : bool :=
  match result_field body "token", result_field body "tokenHead",
        result_field body "sysUserId" with
  | Some _, Some _, Some (PInt _) => false
  | _, _, _ => true
  end.

(** "If the login call returns a non-2xx status or the decoded body is
    missing a required field, the outcome has no info-fetch fields, no
    claim records and exactly one error record, of stage login." *)
Definition login_failure_claim_at (rt : Runtime) (cred : credential) (cfg : config)
  (w : W) : Prop :=
  forall r w1,
    login_reply cred cfg w = (Ok r, w1) ->
    status_2xx (status_code r) = false \/ missing_login_field (decoded r) = true ->
    exists o s e,
      login_and_claim cred cfg w = (Ok o, s)
      /\ errors o = [e] /\ stage e = "login"
      /\ info_status_code o = None /\ info_response o = None
      /\ claim_responses o = None /\ claimed_tiers o = None.

(** "If login succeeds but the info call returns a non-2xx status, the
    outcome has no claim records, no claim call is made and the only
    error record is of stage fetch_info." *)
Definition fetch_failure_claim_at (rt : Runtime) (cred : credential) (cfg : config)
  (w : W) : Prop :=
  forall r1 w1 r2 w2,
    login_reply cred cfg w = (Ok r1, w1) ->
    status_2xx (status_code r1) = true ->
    missing_login_field (decoded r1) = false ->
    info_reply cfg (decoded r1) w1 = (Ok r2, w2) ->
    status_2xx (status_code r2) = false ->
    exists o s e,
      login_and_claim cred cfg w = (Ok o, s)
      /\ errors o = [e] /\ stage e = "fetch_info"
      /\ claim_responses o = None
      /\ List.filter is_claim_call (posted s) = [].

(** "A tier id is in the success list only if its claim call completed
    and returned a 2xx status." *)
Definition success_list_claim_at (rt : Runtime) (cred : credential) (cfg : config)
  (w : W) : Prop :=
  forall o s l num,
    login_and_claim cred cfg w = (Ok o, s) ->
    claimed_tiers o = Some l ->
    num ∈ l ->
    exists r,
      Call DAILY_CLAIM (claim_payload num) (Ok r) ∈ posted s
      /\ status_2xx (status_code r) = true.

(** ** The ledger of a run

    What the replies to the calls of a run leave in [out], written as
    functions of the replies. *)

Definition is_dict (v : value) : bool :=
  match v with
  | PDict _ => true
  | _ => false
  end.

(** Line 151 and the start of line 152: the tier list, or what building
    it raises. *)
Definition tier_list (info : value) : result (list value) :=
  match py_get info "result" (PDict []) with
  | Ok res =>
      match py_get res "memberReadingRewardDetailVoList" (PList []) with
      | Ok tiers => py_iter tiers
      | Raise e => Raise e
      end
  | Raise e => Raise e
  end.

(** The status and the decoded body of a reply that is a response. *)
Definition reply_status (res : result response) : option Z :=
  match res with
  | Ok r => Some (status_code r)
  | Raise _ => None
  end.

Definition reply_body (res : result response) : option value :=
  match res with
  | Ok r => Some (decoded r)
  | Raise _ => None
  end.

(** What [raise_for_status] raises on [r], if anything. *)
Definition http_error (r : response) : option exn := Exn HTTPError <$> http_error_msg r.

(** [rr] after the claim calls [rs]: the last response returned. *)
Fixpoint last_response (prior : option response) (rs : list (value * result response)) :
  option response :=
  match rs with
  | [] => prior
  | (_, Ok r) :: rs' => last_response (Some r) rs'
  | (_, Raise _) :: rs' => last_response prior rs'
  end.

(** The first claim call raised while [rr] was unbound. *)
Definition unbound_failure (prior : option response)
  (rs : list (value * result response)) : bool :=
  match prior, rs with
  | None, (_, Raise _) :: _ => true
  | _, _ => false
  end.

(** The exception of an attribute lookup of [get] on [v]. *)
Definition no_get (v : value) : exn :=
  Exn AttributeError ("'" +:+ type_name v +:+ "' object has no attribute 'get'").

Definition unbound_rr : exn :=
  Exn UnboundLocalError
    "cannot access local variable 'rr' where it is not associated with a value".

Definition is_lower_hex (a : ascii) : bool :=
  let n := Z.of_N (N_of_ascii a) in
  ((48 <=? n) && (n <=? 57)) || ((97 <=? n) && (n <=? 102)).

Section Ledger.

Context {rt : Runtime}.

(** The record that the inner handler writes for tier [num] on [e],
    with the response [r0] that [rr] holds. *)
Definition claim_error (num : value) (e : exn) (r0 : response) : error_record :=
  error_of ("claim_" +:+ py_str num) e (Some (decoded r0)).

(** The records that the inner handler writes over the claim calls
    [rs], [prior] being what [rr] holds before them. *)
Fixpoint claim_errors (prior : option response) (rs : list (value * result response)) :
  list error_record :=
  match rs with
  | [] => []
  | (num, Ok r) :: rs' =>
      match http_error r with
      | Some e => [claim_error num e r]
      | None => []
      end ++ claim_errors (Some r) rs'
  | (num, Raise e) :: rs' =>
      match prior with
      | Some r0 => [claim_error num e r0]
      | None => []
      end ++ claim_errors prior rs'
  end.

(** The exception that the handler of stage 1 catches, if any: that of
    the call, of [raise_for_status], of a [get] on something that is not
    a [dict], or the [ValueError] of line 126. *)
Definition login_failure (res : result response) : option exn :=
  match res with
  | Raise e => Some e
  | Ok r =>
      match http_error r with
      | Some e => Some e
      | None =>
          match py_get (decoded r) "result" (PDict []) with
          | Raise e => Some e
          | Ok res =>
              match py_get res "token" PNone, py_get res "tokenHead" PNone with
              | Ok token, Ok head =>
                  if negb (truthy token) || negb (truthy head)
                  then Some (Exn ValueError "Missing token/head")
                  else None
              | Raise e, _ | _, Raise e => Some e
              end
          end
      end
  end.

(** The exception that the handler of stage 2 catches, if any. *)
Definition fetch_failure (res : result response) : option exn :=
  match res with
  | Raise e => Some e
  | Ok r => http_error r
  end.

(** [out] once the reply to the login call, then to the info call, is
    recorded: nothing is recorded of a call that raised. *)
Definition recorded_login (cred : credential) (w : W) (res : result response) : outcome :=
  match res with
  | Ok r => logged cred w r
  | Raise _ => new_out (cred_phone cred) (now_isoformat w)
  end.

Definition recorded_info (o : outcome) (res : result response) : outcome :=
  match res with
  | Ok r => informed o r
  | Raise _ => o
  end.

(** [s] is [s0] after the claim calls [rs], error records and [rr]
    included. *)
Record tracks (s0 s : frame) (rs : list (value * result response)) : Prop := {
  trk_extends : extends s0 s rs;
  trk_errors : errors (out s) = errors (out s0) ++ claim_errors (rr s0) rs;
  trk_rr : rr s = last_response (rr s0) rs;
  trk_idle : rs = [] -> s = s0;
  trk_silent :
    omap attempt_of rs = [] -> claim_responses (out s) = claim_responses (out s0);
}.

(** How stage 3 ends on [info], given the claim calls [rs] it made: the
    loop ran to its end, or the outer handler caught [e]. *)
Definition stage3_end (info : value) (rs : list (value * result response))
  (o0 o : outcome) : Prop :=
  (exists items,
     tier_list info = Ok items
     /\ forallb is_dict items = true
     /\ rs.*1 = eligible items
     /\ unbound_failure None rs = false
     /\ claimed_tiers o = Some (omap success_of rs)
     /\ errors o = errors o0 ++ claim_errors None rs)
  \/ (exists e,
        claimed_tiers o = claimed_tiers o0
        /\ errors o = errors o0 ++ claim_errors None rs ++ [error_of "claim_loop" e None]
        /\ ((tier_list info = Raise e /\ rs = [])
            \/ (unbound_failure None rs = false
                /\ exists items x,
                     tier_list info = Ok items /\ x ∈ items
                     /\ is_dict x = false /\ e = no_get x)
            \/ (e = unbound_rr /\ exists num e0, rs = [(num, Raise e0)]))).

(** A frame with [rr] unbound and [completed] empty. *)
Definition at_stage (w : W) (se : session) (o : outcome) (calls : list call) : frame :=
  {| world := w; sess := se; out := o; rr := None; completed := []; posted := calls |}.

End Ledger.

(** More scripts for the examples. *)

(** A reply whose body does not decode. *)
Definition garbled (code : Z) : result response :=
  Ok (Response code "OK" BASE "<html>" None).

Definition w_login_garbled : list (result response) :=
  [garbled 200; reply 200 two_complete].

Definition w_info_garbled : list (result response) :=
  [reply 200 login_ok_body; garbled 200; reply 200 PNone].

Definition w_info_null_result : list (result response) :=
  [reply 200 login_ok_body; reply 200 (PDict [("result", PNone)]); reply 200 PNone].

Definition w_info_null_list : list (result response) :=
  [reply 200 login_ok_body;
   reply 200 (PDict [("result", PDict [("memberReadingRewardDetailVoList", PNone)])]);
   reply 200 PNone].

Definition w_all_pending : list (result response) :=
  [reply 200 login_ok_body;
   reply 200 (info_body [tier 1 "pending"; tier 2 "incomplete"]);
   reply 200 PNone].

(** The first claim is answered 200, the second 500, the third times
    out. *)
Definition w_mixed : list (result response) :=
  [reply 200 login_ok_body;
   reply 200 (info_body [tier 1 "complete"; tier 2 "complete"; tier 3 "complete"]);
   reply 200 (PInt 1); reply 500 (PInt 2); timed_out].

(** ** Properties *)

Section Properties.

Context {rt : Runtime}.

#[local] Opaque Md5.hexdigest BASE LOGIN DAILY_INFO DAILY_CLAIM.

Lemma safe_json_run {St} (resp : response) (s : St) :
  safe_json resp s = (Ok (decoded resp), s).
Proof.
  unfold safe_json, try_except, lift, resp_json, decoded.
  destruct (json_body resp); reflexivity.
Qed.

Lemma raise_for_status_ok {St} (resp : response) (s : St) :
  error_status (status_code resp) = false ->
  raise_for_status resp s = (Ok tt, s).
Proof.
  unfold raise_for_status, lift, raise_for_status_result, http_error_msg, error_status.
  intros H.
  destruct (400 <=? status_code resp) eqn:Hlo, (status_code resp <? 500) eqn:H5,
    (500 <=? status_code resp) eqn:H6, (status_code resp <? 600) eqn:H7;
    simpl in *; try reflexivity; try discriminate; lia.
Qed.

Lemma raise_for_status_error (resp : response) :
  error_status (status_code resp) = true ->
  exists msg, forall St (s : St),
    raise_for_status resp s = (Raise (Exn HTTPError msg), s).
Proof.
  unfold raise_for_status, lift, raise_for_status_result, http_error_msg, error_status.
  intros H.
  destruct (400 <=? status_code resp) eqn:Hlo, (status_code resp <? 500) eqn:H5,
    (500 <=? status_code resp) eqn:H6, (status_code resp <? 600) eqn:H7;
    simpl in *; try discriminate; try lia; eauto.
Qed.

Lemma login_granted_fields (body : value) :
  login_granted body = true ->
  exists res,
    py_get body "result" (PDict []) = Ok (PDict res)
    /\ (forall k, py_get (PDict res) k PNone
                  = Ok (from_option id PNone (result_field body k)))
    /\ truthy (from_option id PNone (result_field body "token")) = true
    /\ truthy (from_option id PNone (result_field body "tokenHead")) = true.
Proof.
  unfold login_granted, result_field.
  destruct body as [| | | | | |items]; simpl; try discriminate.
  destruct (dict_lookup items "result") as [[| | | | | |res]|]; simpl; try discriminate.
  intros [Ht Hh]%andb_prop. exists res. auto.
Qed.

Lemma login_not_granted (body : value) :
  login_granted body = false ->
  (exists e, py_get body "result" (PDict []) = Raise e)
  \/ (exists res, py_get body "result" (PDict []) = Ok res
        /\ exists e, py_get res "token" PNone = Raise e)
  \/ (exists res token head uid,
        py_get body "result" (PDict []) = Ok res
        /\ py_get res "token" PNone = Ok token
        /\ py_get res "tokenHead" PNone = Ok head
        /\ py_get res "sysUserId" PNone = Ok uid
        /\ negb (truthy token) || negb (truthy head) = true).
Proof.
  unfold login_granted.
  destruct (py_get body "result" (PDict [])) as [res|e] eqn:Hres; [|eauto].
  destruct res as [| | | | | |items];
    try solve [intros _; right; left; eexists; split; [reflexivity|]; simpl; eauto].
  simpl. intros H. right. right.
  eexists _, _, _, _. repeat split.
  destruct (truthy _); simpl in *; [|reflexivity]. rewrite H. reflexivity.
Qed.

Ltac mstep :=
  unfold bind, try_except, ret, raise, lift, update_out, update_headers, bind_rr,
    read_rr, set_completed, get_completed, get_out, sess_post, pace;
  cbn [world sess out rr completed posted fst snd app].

Ltac mstep_in H :=
  unfold bind, try_except, ret, raise, lift, update_out, update_headers, bind_rr,
    read_rr, set_completed, get_completed, get_out, sess_post, pace in H;
  cbn [world sess out rr completed posted fst snd app] in H.

Ltac mrun :=
  repeat first
    [ progress mstep
    | rewrite safe_json_run
    | rewrite raise_for_status_ok by assumption ].

Lemma login_transport_error cred cfg w e w1 :
  login_reply cred cfg w = (Raise e, w1) ->
  login_and_fetch cred cfg (start cred cfg w)
  = (Ok None,
     {| world := w1; sess := make_session cfg;
        out := append_error (error_of "login" e None)
                 (new_out (cred_phone cred) (now_isoformat w));
        rr := None; completed := [];
        posted := [Call LOGIN (login_payload cred cfg) (Raise e)] |}).
Proof.
  unfold login_reply, login_payload. intros H.
  unfold login_and_fetch, login_stage, login_body, start.
  unfold bind at 1. unfold try_except at 1. unfold bind at 1. unfold bind at 1.
  unfold sess_post at 1. cbn [sess world out rr completed posted].
  rewrite H. reflexivity.
Qed.

Lemma login_http_error cred cfg w r1 w1 :
  login_reply cred cfg w = (Ok r1, w1) ->
  error_status (status_code r1) = true ->
  exists e,
    login_and_fetch cred cfg (start cred cfg w)
    = (Ok None,
       {| world := w1; sess := make_session cfg;
          out := append_error (error_of "login" e None) (logged cred w r1);
          rr := None; completed := [];
          posted := [Call LOGIN (login_payload cred cfg) (Ok r1)] |}).
Proof.
  unfold login_reply, login_payload. intros H Herr.
  destruct (raise_for_status_error r1 Herr) as [msg Hmsg].
  exists (Exn HTTPError msg).
  unfold login_and_fetch, login_stage, login_body, start. mstep. rewrite H. mrun.
  rewrite Hmsg. reflexivity.
Qed.

Lemma login_fields_missing cred cfg w r1 w1 :
  login_reply cred cfg w = (Ok r1, w1) ->
  error_status (status_code r1) = false ->
  login_granted (decoded r1) = false ->
  exists e,
    login_and_fetch cred cfg (start cred cfg w)
    = (Ok None,
       {| world := w1; sess := make_session cfg;
          out := append_error (error_of "login" e None) (logged cred w r1);
          rr := None; completed := [];
          posted := [Call LOGIN (login_payload cred cfg) (Ok r1)] |}).
Proof.
  unfold login_reply, login_payload. intros H Hok Hno.
  unfold login_and_fetch, login_stage, login_body, start. mstep. rewrite H. mrun.
  destruct (login_not_granted _ Hno)
    as [[e He]|[(res & Hres & e & He)|(res & token & head & uid & Hres & Ht & Hh & Hu & Hb)]].
  - rewrite He. mrun. eexists. reflexivity.
  - rewrite Hres. mrun. rewrite He. mrun. eexists. reflexivity.
  - rewrite Hres. mrun. rewrite Ht, Hh, Hu. mrun. rewrite Hb. mrun.
    eexists. reflexivity.
Qed.

(** The frame in which stage 2 starts. *)
Lemma login_accepted cred cfg w r1 w1 :
  login_reply cred cfg w = (Ok r1, w1) ->
  error_status (status_code r1) = false ->
  login_granted (decoded r1) = true ->
  login_stage cred cfg (start cred cfg w)
  = (Ok true,
     {| world := w1; sess := authorized cfg (decoded r1);
        out := logged cred w r1; rr := None; completed := [];
        posted := [Call LOGIN (login_payload cred cfg) (Ok r1)] |}).
Proof.
  unfold login_reply, login_payload. intros H Hok Hyes.
  unfold login_stage, login_body, start. mstep. rewrite H. mrun.
  destruct (login_granted_fields _ Hyes) as (res & Hres & Hget & Ht & Hh).
  rewrite Hres. mrun. rewrite !Hget. mrun. rewrite Ht, Hh. mrun.
  reflexivity.
Qed.

Lemma fetch_transport_error cfg s e w2 :
  post (sess s) DAILY_INFO (PDict []) (timeout cfg) (world s) = (Raise e, w2) ->
  fetch_info_stage cfg s
  = (Ok None,
     {| world := w2; sess := sess s;
        out := append_error (error_of "fetch_info" e None) (out s);
        rr := rr s; completed := completed s;
        posted := posted s ++ [Call DAILY_INFO (PDict []) (Raise e)] |}).
Proof.
  intros H. unfold fetch_info_stage, fetch_info_body. mstep. rewrite H. reflexivity.
Qed.

Lemma fetch_http_error cfg s r2 w2 :
  post (sess s) DAILY_INFO (PDict []) (timeout cfg) (world s) = (Ok r2, w2) ->
  error_status (status_code r2) = true ->
  exists e,
    fetch_info_stage cfg s
    = (Ok None,
       {| world := w2; sess := sess s;
          out := append_error (error_of "fetch_info" e None) (informed (out s) r2);
          rr := rr s; completed := completed s;
          posted := posted s ++ [Call DAILY_INFO (PDict []) (Ok r2)] |}).
Proof.
  intros H Herr. destruct (raise_for_status_error r2 Herr) as [msg Hmsg].
  exists (Exn HTTPError msg).
  unfold fetch_info_stage, fetch_info_body. mstep. rewrite H. mrun.
  rewrite Hmsg. reflexivity.
Qed.

Lemma fetch_accepted cfg s r2 w2 :
  post (sess s) DAILY_INFO (PDict []) (timeout cfg) (world s) = (Ok r2, w2) ->
  error_status (status_code r2) = false ->
  fetch_info_stage cfg s
  = (Ok (Some (decoded r2)),
     {| world := w2; sess := sess s; out := informed (out s) r2;
        rr := rr s; completed := completed s;
        posted := posted s ++ [Call DAILY_INFO (PDict []) (Ok r2)] |}).
Proof.
  intros H Hok. unfold fetch_info_stage, fetch_info_body. mstep. rewrite H. mrun.
  reflexivity.
Qed.

(** *** The claim loop *)

Lemma extends_refl s : extends s s [].
Proof.
  split; simpl; rewrite ?app_nil_r; reflexivity.
Qed.

Lemma extends_trans s0 s1 s2 rs1 rs2 :
  extends s0 s1 rs1 -> extends s1 s2 rs2 -> extends s0 s2 (rs1 ++ rs2).
Proof.
  intros [] []. split.
  - rewrite fmap_app, app_assoc. congruence.
  - rewrite omap_app, app_assoc. congruence.
  - rewrite omap_app, app_assoc. congruence.
  - etrans; eassumption.
  - congruence.
  - congruence.
Qed.

Lemma attempts_append a o :
  attempts (append_claim_response a o) = attempts o ++ [a].
Proof. reflexivity. Qed.

(** One turn of the loop makes at most one claim call, for the tier at
    hand when it is eligible, whatever the way in which the turn ends. *)
Lemma claim_tier_extends cfg x s r s1 :
  claim_tier cfg x s = (r, s1) ->
  exists rs, rs.*1 = option_list (eligible_num x) /\ extends s s1 rs.
Proof.
  unfold claim_tier, eligible_num.
  destruct x as [| | | | | |items];
    try (mstep; simpl; intros [= <- <-]; exists []; split;
         [reflexivity|apply extends_refl]).
  mstep. cbn [py_get].
  destruct (eq_str _ "complete"); cycle 1.
  { intros [= <- <-]. exists []. split; [reflexivity|apply extends_refl]. }
  set (num := from_option id PNone (dict_lookup items "workInfoReadingNum")).
  unfold claim_call, claim_handler. mstep.
  destruct (post (sess s) DAILY_CLAIM (PDict [("workInfoReadingNum", num)])
              (timeout cfg) (world s)) as [[r0|e] w1] eqn:Hpost.
  - mrun. destruct (error_status (status_code r0)) eqn:Herr.
    + destruct (raise_for_status_error r0 Herr) as [msg Hmsg].
      rewrite Hmsg. mrun. intros [= <- <-].
      exists [(num, Ok r0)]. split; [reflexivity|].
      split; cbn; unfold attempt_of, success_of; cbn; rewrite ?Herr, ?app_nil_r;
        try reflexivity.
      apply prefix_app_r. reflexivity.
    + mrun. intros [= <- <-].
      exists [(num, Ok r0)]. split; [reflexivity|].
      split; cbn; unfold attempt_of, success_of; cbn; rewrite ?Herr, ?app_nil_r;
        reflexivity.
  - destruct (rr s) as [r0|] eqn:Hrr.
    + mrun. intros [= <- <-].
      exists [(num, Raise e)]. split; [reflexivity|].
      split; cbn; rewrite ?app_nil_r; try reflexivity.
      apply prefix_app_r. reflexivity.
    + intros [= <- <-].
      exists [(num, Raise e)]. split; [reflexivity|].
      split; cbn; rewrite ?app_nil_r; reflexivity.
Qed.

Lemma claim_tier_eligible cfg x num :
  eligible_num x = Some num ->
  claim_tier cfg x
  = (try_except (claim_call cfg num) (claim_handler num) ;; pace).
Proof.
  unfold eligible_num, claim_tier.
  destruct x as [| | | | | |items]; try discriminate.
  unfold bind at 1. unfold lift at 1. cbn [py_get].
  destruct (eq_str _ "complete"); [|discriminate].
  intros [= <-]. reflexivity.
Qed.

(** A claim call that raises while [rr] is unbound: the handler raises
    in its turn and the turn of the loop ends on [UnboundLocalError],
    with no error record written. *)
Lemma claim_tier_raises_unbound cfg x num s e w1 :
  eligible_num x = Some num ->
  rr s = None ->
  post (sess s) DAILY_CLAIM (claim_payload num) (timeout cfg) (world s) = (Raise e, w1) ->
  exists e',
    exn_class_of e' = UnboundLocalError
    /\ claim_tier cfg x s
       = (Raise e',
          {| world := w1; sess := sess s; out := out s; rr := None;
             completed := completed s;
             posted := posted s ++ [Call DAILY_CLAIM (claim_payload num) (Raise e)] |}).
Proof.
  intros Hx Hrr Hpost. rewrite (claim_tier_eligible _ _ _ Hx).
  unfold claim_call, claim_handler, claim_payload in *. mstep.
  rewrite Hpost, Hrr. eexists. split; [|reflexivity]. reflexivity.
Qed.

(** A claim call that raises once [rr] is bound: the error is recorded
    under the tier, with the response of an earlier call, and the loop
    goes on. *)
Lemma claim_tier_raises_bound cfg x num s e w1 r0 :
  eligible_num x = Some num ->
  rr s = Some r0 ->
  post (sess s) DAILY_CLAIM (claim_payload num) (timeout cfg) (world s) = (Raise e, w1) ->
  claim_tier cfg x s
  = (Ok tt,
     {| world := sleep_random_uniform w1; sess := sess s;
        out := append_error (error_of ("claim_" +:+ py_str num) e (Some (decoded r0)))
                 (out s);
        rr := Some r0; completed := completed s;
        posted := posted s ++ [Call DAILY_CLAIM (claim_payload num) (Raise e)] |}).
Proof.
  intros Hx Hrr Hpost. rewrite (claim_tier_eligible _ _ _ Hx).
  unfold claim_call, claim_handler, claim_payload in *. mstep.
  rewrite Hpost, Hrr. mrun. reflexivity.
Qed.

(** A claim call answered with a status in 400..599: the attempt and an
    error scoped to the tier are recorded, and the loop goes on. *)
Lemma claim_tier_http_error cfg x num s r w1 :
  eligible_num x = Some num ->
  post (sess s) DAILY_CLAIM (claim_payload num) (timeout cfg) (world s) = (Ok r, w1) ->
  error_status (status_code r) = true ->
  exists e,
    claim_tier cfg x s
    = (Ok tt,
       {| world := sleep_random_uniform w1; sess := sess s;
          out := append_error (error_of ("claim_" +:+ py_str num) e (Some (decoded r)))
                   (append_claim_response
                      (ClaimAttempt num (status_code r) (decoded r)) (out s));
          rr := Some r; completed := completed s;
          posted := posted s ++ [Call DAILY_CLAIM (claim_payload num) (Ok r)] |}).
Proof.
  intros Hx Hpost Herr. rewrite (claim_tier_eligible _ _ _ Hx).
  destruct (raise_for_status_error r Herr) as [msg Hmsg].
  unfold claim_call, claim_handler, claim_payload in *. mstep.
  rewrite Hpost. mrun. rewrite Hmsg. mrun. eexists. reflexivity.
Qed.

(** A claim call answered with any other status: the attempt is
    recorded and the tier joins [completed]. *)
Lemma claim_tier_accepted cfg x num s r w1 :
  eligible_num x = Some num ->
  post (sess s) DAILY_CLAIM (claim_payload num) (timeout cfg) (world s) = (Ok r, w1) ->
  error_status (status_code r) = false ->
  claim_tier cfg x s
  = (Ok tt,
     {| world := sleep_random_uniform w1; sess := sess s;
        out := append_claim_response
                 (ClaimAttempt num (status_code r) (decoded r)) (out s);
        rr := Some r; completed := completed s ++ [num];
        posted := posted s ++ [Call DAILY_CLAIM (claim_payload num) (Ok r)] |}).
Proof.
  intros Hx Hpost Herr. rewrite (claim_tier_eligible _ _ _ Hx).
  unfold claim_call, claim_handler, claim_payload in *. mstep.
  rewrite Hpost. mrun. reflexivity.
Qed.

Lemma eligible_cons x items :
  eligible (x :: items) = option_list (eligible_num x) ++ eligible items.
Proof. unfold eligible. simpl. destruct (eligible_num x); reflexivity. Qed.

Lemma for_each_claim_tier_extends cfg items : forall s r s',
  for_each (claim_tier cfg) items s = (r, s') ->
  exists rs,
    rs.*1 `prefix_of` eligible items
    /\ extends s s' rs
    /\ (r = Ok tt -> rs.*1 = eligible items).
Proof.
  induction items as [|x items IH]; intros s r s'; cbn [for_each].
  - intros [= <- <-]. exists []. split; [reflexivity|].
    split; [apply extends_refl|reflexivity].
  - unfold bind at 1.
    destruct (claim_tier cfg x s) as [[[]|e] s1] eqn:Hx;
      destruct (claim_tier_extends _ _ _ _ _ Hx) as (rs1 & Hrs1 & Hext1).
    + intros Hrest. destruct (IH _ _ _ Hrest) as (rs2 & Hpre & Hext2 & Hall).
      exists (rs1 ++ rs2). rewrite fmap_app, eligible_cons, Hrs1.
      split; [apply prefix_app; assumption|].
      split; [eapply extends_trans; eassumption|].
      intros Hr. rewrite (Hall Hr). reflexivity.
    + intros [= <- <-]. exists rs1. rewrite eligible_cons, Hrs1.
      split; [apply prefix_app_r; reflexivity|].
      split; [assumption|discriminate].
Qed.

Lemma claim_loop_summary cfg info s r s' :
  claim_loop cfg info s = (r, s') ->
  exists rs s1,
    rs.*1 `prefix_of` eligible (tier_items info)
    /\ extends s s1 rs
    /\ match r with
       | Ok _ =>
           rs.*1 = eligible (tier_items info)
           /\ s' = {| world := world s1; sess := sess s1;
                      out := set_claimed_tiers (completed s1) (out s1);
                      rr := rr s1; completed := completed s1; posted := posted s1 |}
       | Raise _ => s' = s1
       end.
Proof.
  unfold claim_loop, tier_items.
  unfold bind at 1. unfold lift at 1.
  destruct (py_get info "result" (PDict [])) as [res|e]; cycle 1.
  { intros [= <- <-]. exists [], s.
    split; [apply prefix_nil|]. split; [apply extends_refl|reflexivity]. }
  unfold bind at 1. unfold lift at 1.
  destruct (py_get res "memberReadingRewardDetailVoList" (PList [])) as [tiers|e]; cycle 1.
  { intros [= <- <-]. exists [], s.
    split; [apply prefix_nil|]. split; [apply extends_refl|reflexivity]. }
  unfold bind at 1. unfold lift at 1.
  destruct (py_iter tiers) as [items|e]; cycle 1.
  { intros [= <- <-]. exists [], s.
    split; [apply prefix_nil|]. split; [apply extends_refl|reflexivity]. }
  unfold bind at 1.
  destruct (for_each (claim_tier cfg) items s) as [[[]|e] s1] eqn:Hloop;
    destruct (for_each_claim_tier_extends _ _ _ _ _ Hloop) as (rs & Hpre & Hext & Hall).
  - mstep. intros [= <- <-]. exists rs, s1. auto.
  - intros [= <- <-]. exists rs, s1. auto.
Qed.

Lemma claim_stage_after_ok cfg info s s1 :
  claim_loop cfg info (entering s) = (Ok tt, s1) ->
  claim_stage cfg info s = (Ok tt, s1).
Proof.
  intros H. unfold claim_stage. unfold bind at 1. unfold set_completed at 1.
  unfold try_except. fold (entering s). rewrite H. reflexivity.
Qed.

Lemma claim_stage_after_raise cfg info s e s1 :
  claim_loop cfg info (entering s) = (Raise e, s1) ->
  claim_stage cfg info s
  = (Ok tt,
     {| world := world s1; sess := sess s1;
        out := append_error (error_of "claim_loop" e None) (out s1);
        rr := rr s1; completed := completed s1; posted := posted s1 |}).
Proof.
  intros H. unfold claim_stage. unfold bind at 1. unfold set_completed at 1.
  unfold try_except. fold (entering s). rewrite H. reflexivity.
Qed.

Lemma pipeline_early cred cfg s0 s :
  login_and_fetch cred cfg s0 = (Ok None, s) ->
  pipeline cred cfg s0 = (Ok (out s), s).
Proof. intros H. unfold pipeline. unfold bind. rewrite H. reflexivity. Qed.

Lemma pipeline_claims cred cfg s0 info s s' :
  login_and_fetch cred cfg s0 = (Ok (Some info), s) ->
  claim_stage cfg info s = (Ok tt, s') ->
  pipeline cred cfg s0 = (Ok (out s'), s').
Proof.
  intros H1 H2. unfold pipeline. unfold bind at 1. rewrite H1.
  unfold bind. rewrite H2. reflexivity.
Qed.

Lemma login_and_fetch_after_login cred cfg s0 s1 :
  login_stage cred cfg s0 = (Ok true, s1) ->
  login_and_fetch cred cfg s0 = fetch_info_stage cfg s1.
Proof. intros H. unfold login_and_fetch. unfold bind. rewrite H. reflexivity. Qed.

Lemma login_call_not_claim p r : is_claim_call (Call LOGIN p r) = false.
Proof. vm_compute. reflexivity. Qed.

Lemma info_call_not_claim p r : is_claim_call (Call DAILY_INFO p r) = false.
Proof. vm_compute. reflexivity. Qed.

Lemma claim_call_is_claim nr : is_claim_call (claim_call_of nr) = true.
Proof. vm_compute. reflexivity. Qed.

Lemma filter_claim_calls rs :
  List.filter is_claim_call (claim_call_of <$> rs) = claim_call_of <$> rs.
Proof.
  induction rs as [|nr rs IH]; [reflexivity|].
  cbn [fmap list_fmap List.filter]. rewrite claim_call_is_claim.
  f_equal. exact IH.
Qed.

(** Stages 1 and 2 return, leave the claim keys of [out] unset, and post
    the login call, then at most the info call. *)
Lemma login_and_fetch_summary cred cfg w :
  exists r s res1 mid,
    login_and_fetch cred cfg (start cred cfg w) = (Ok r, s)
    /\ posted s = Call LOGIN (login_payload cred cfg) res1 :: mid
    /\ (mid = [] \/ exists res2, mid = [Call DAILY_INFO (PDict []) res2])
    /\ claim_responses (out s) = None
    /\ claimed_tiers (out s) = None
    /\ completed s = []
    /\ (forall info, r = Some info -> info_response (out s) = Some info).
Proof.
  destruct (login_reply cred cfg w) as [[r1|e1] w1] eqn:Hlogin.
  - destruct (error_status (status_code r1)) eqn:Herr1.
    { destruct (login_http_error _ _ _ _ _ Hlogin Herr1) as [e ->].
      eexists _, _, _, []. repeat split; cbn; eauto; intros; congruence. }
    destruct (login_granted (decoded r1)) eqn:Hgrant; cycle 1.
    { destruct (login_fields_missing _ _ _ _ _ Hlogin Herr1 Hgrant) as [e ->].
      eexists _, _, _, []. repeat split; cbn; eauto; intros; congruence. }
    rewrite (login_and_fetch_after_login _ _ _ _
               (login_accepted _ _ _ _ _ Hlogin Herr1 Hgrant)).
    match goal with |- context [fetch_info_stage cfg ?s1] => set (S1 := s1) end.
    destruct (post (sess S1) DAILY_INFO (PDict []) (timeout cfg) (world S1))
      as [[r2|e2] w2] eqn:Hinfo.
    + destruct (error_status (status_code r2)) eqn:Herr2.
      * destruct (fetch_http_error _ _ _ _ Hinfo Herr2) as [e ->].
        eexists _, _, _, [_]. repeat split; cbn; eauto; intros; congruence.
      * rewrite (fetch_accepted _ _ _ _ Hinfo Herr2).
        eexists _, _, _, [_]. repeat split; cbn; eauto; intros; congruence.
    + rewrite (fetch_transport_error _ _ _ _ Hinfo).
      eexists _, _, _, [_]. repeat split; cbn; eauto; intros; congruence.
  - rewrite (login_transport_error _ _ _ _ _ Hlogin).
    eexists _, _, _, []. repeat split; cbn; eauto; intros; congruence.
Qed.

Lemma entering_id s : completed s = [] -> entering s = s.
Proof. destruct s. cbn. intros ->. reflexivity. Qed.

Lemma claim_stage_total cfg info s :
  exists s', claim_stage cfg info s = (Ok tt, s').
Proof.
  destruct (claim_loop cfg info (entering s)) as [[[]|e] s1] eqn:Hloop.
  - rewrite (claim_stage_after_ok _ _ _ _ Hloop). eauto.
  - rewrite (claim_stage_after_raise _ _ _ _ _ Hloop). eauto.
Qed.

(** The whole run, read off the call log: the login call, at most one
    info call, then the claim calls [rs], which decide what
    [claim_responses] and [claimed_tiers] hold. *)
Lemma login_and_claim_summary cred cfg w :
  exists s res1 mid rs,
    login_and_claim cred cfg w = (Ok (out s), s)
    /\ posted s = Call LOGIN (login_payload cred cfg) res1 :: mid ++ (claim_call_of <$> rs)
    /\ (mid = [] \/ exists res2, mid = [Call DAILY_INFO (PDict []) res2])
    /\ rs.*1 `prefix_of` eligible (fetched_tiers (out s))
    /\ attempts (out s) = omap attempt_of rs
    /\ (forall l, claimed_tiers (out s) = Some l ->
          l = omap success_of rs /\ rs.*1 = eligible (fetched_tiers (out s))).
Proof.
  unfold login_and_claim.
  destruct (login_and_fetch_summary cred cfg w)
    as (r & s0 & res1 & mid & Hrun & Hposted & Hmid & Hresp & Hclaimed & Hcompl & Hinfo).
  destruct r as [info|].
  - specialize (Hinfo info eq_refl).
    destruct (claim_loop cfg info (entering s0)) as [[[]|e] s'] eqn:Hloop;
      destruct (claim_loop_summary _ _ _ _ _ Hloop) as (rs & s1 & Hpre & Hext & Hend);
      destruct Hext as [Hp Ha Hc He Hf Hs]; cbn in Hp, Ha, Hc, He, Hf;
      injection Hf as _ _ _ _ _ Hf_info Hf_claimed.
    + destruct Hend as [Hall ->].
      rewrite (pipeline_claims _ _ _ _ _ _ Hrun (claim_stage_after_ok _ _ _ _ Hloop)).
      eexists _, res1, mid, rs. split; [reflexivity|]. cbn.
      unfold fetched_tiers, attempts in *. cbn. rewrite Hf_info, Hinfo. cbn.
      rewrite Hresp in Ha. cbn in Ha.
      repeat split; try assumption.
      * rewrite Hp, Hposted. reflexivity.
      * congruence.
    + subst s'.
      rewrite (pipeline_claims _ _ _ _ _ _ Hrun (claim_stage_after_raise _ _ _ _ _ Hloop)).
      eexists _, res1, mid, rs. split; [reflexivity|]. cbn.
      unfold fetched_tiers, attempts in *. cbn. rewrite Hf_info, Hinfo. cbn.
      rewrite Hresp in Ha. cbn in Ha.
      repeat split; try assumption.
      * rewrite Hp, Hposted. reflexivity.
      * congruence.
      * congruence.
  - rewrite (pipeline_early _ _ _ _ Hrun).
    exists s0, res1, mid, []. cbn. rewrite app_nil_r.
    unfold attempts. rewrite Hresp, Hclaimed.
    repeat split; try assumption; try apply prefix_nil; congruence.
Qed.

Lemma omap_attempt_sublist (rs : list (value * result response)) :
  ca_tier <$> omap attempt_of rs `sublist_of` rs.*1.
Proof.
  induction rs as [|[num [r|e]] rs IH]; cbn.
  - constructor.
  - apply sublist_skip. exact IH.
  - apply sublist_cons. exact IH.
Qed.

Lemma omap_success_sublist (rs : list (value * result response)) :
  omap success_of rs `sublist_of` ca_tier <$> omap attempt_of rs.
Proof.
  induction rs as [|[num [r|e]] rs IH]; cbn.
  - constructor.
  - unfold success_of, attempt_of. cbn.
    destruct (error_status (status_code r)).
    + apply sublist_cons. exact IH.
    + apply sublist_skip. exact IH.
  - exact IH.
Qed.

Lemma prefix_sublist {A} (l k : list A) : l `prefix_of` k -> l `sublist_of` k.
Proof. intros [k' ->]. apply sublist_inserts_r. reflexivity. Qed.

Lemma success_of_call (rs : list (value * result response)) num :
  num ∈ omap success_of rs ->
  exists r, (num, Ok r) ∈ rs /\ error_status (status_code r) = false.
Proof.
  intros ([n [r|e]] & Hin & Hs)%list_elem_of_omap; unfold success_of in Hs; cbn in Hs.
  - destruct (error_status (status_code r)) eqn:Herr; [discriminate|].
    injection Hs as ->. eauto.
  - discriminate.
Qed.

Lemma elem_of_filter_claim_calls c l :
  c ∈ List.filter is_claim_call l -> c ∈ l.
Proof.
  rewrite !list_elem_of_In. intros H. apply List.filter_In in H. tauto.
Qed.

(** *** Stage 1 *)

(** C1, as amended.  When the login call raises, or returns a status in
    400..599, or returns a body in which [result] is not an object or
    does not hold a truthy [token] and a truthy [tokenHead], the run
    makes no other call and returns an outcome with exactly one error
    record, of stage [login], and with neither info fields nor claim
    records.  The member id is not among the conditions. *)
Theorem login_failure_stops_pipeline cred cfg w :
  login_rejected (login_reply cred cfg w).1 ->
  exists o s e,
    login_and_claim cred cfg w = (Ok o, s)
    /\ errors o = [e] /\ stage e = "login"
    /\ info_status_code o = None /\ info_response o = None
    /\ claim_responses o = None /\ claimed_tiers o = None
    /\ posted s = [Call LOGIN (login_payload cred cfg) (login_reply cred cfg w).1].
Proof.
  unfold login_and_claim.
  destruct (login_reply cred cfg w) as [[r1|e1] w1] eqn:Hlogin; cbn.
  - intros Hrej.
    assert (exists e,
      login_and_fetch cred cfg (start cred cfg w)
      = (Ok None,
         {| world := w1; sess := make_session cfg;
            out := append_error (error_of "login" e None) (logged cred w r1);
            rr := None; completed := [];
            posted := [Call LOGIN (login_payload cred cfg) (Ok r1)] |}))
      as [e He].
    { destruct (error_status (status_code r1)) eqn:Herr.
      - eapply login_http_error; eassumption.
      - destruct Hrej as [Hrej|Hrej]; [discriminate|].
        eapply login_fields_missing; eassumption. }
    rewrite (pipeline_early _ _ _ _ He).
    eexists _, _, _. split; [reflexivity|]. cbn. repeat split.
  - intros _. rewrite (pipeline_early _ _ _ _ (login_transport_error _ _ _ _ _ Hlogin)).
    eexists _, _, _. split; [reflexivity|]. cbn. repeat split.
Qed.

(** *** Stage 2 *)

(** C6, as amended.  When login got through (the reply has a status
    outside 400..599 and a body with truthy [token] and [tokenHead]) and
    the info call, made with the authorized session, raises or returns a
    status in 400..599, the run makes no claim call and returns an
    outcome with exactly one error record, of stage [fetch_info], and
    without claim records. *)
Theorem fetch_failure_stops_pipeline cred cfg w r1 w1 :
  login_reply cred cfg w = (Ok r1, w1) ->
  error_status (status_code r1) = false ->
  login_granted (decoded r1) = true ->
  info_rejected (info_reply cfg (decoded r1) w1).1 ->
  exists o s e,
    login_and_claim cred cfg w = (Ok o, s)
    /\ errors o = [e] /\ stage e = "fetch_info"
    /\ claim_responses o = None /\ claimed_tiers o = None
    /\ posted s = [Call LOGIN (login_payload cred cfg) (Ok r1);
                   Call DAILY_INFO (PDict []) (info_reply cfg (decoded r1) w1).1].
Proof.
  intros Hlogin Herr1 Hgrant. unfold login_and_claim, info_reply.
  pose proof (login_accepted _ _ _ _ _ Hlogin Herr1 Hgrant) as Hstage.
  pose proof (login_and_fetch_after_login _ _ _ _ Hstage) as Hfetch.
  match type of Hfetch with _ = fetch_info_stage cfg ?s1 => set (S1 := s1) in * end.
  change (post (authorized cfg (decoded r1)) DAILY_INFO (PDict []) (timeout cfg) w1)
    with (post (sess S1) DAILY_INFO (PDict []) (timeout cfg) (world S1)).
  destruct (post (sess S1) DAILY_INFO (PDict []) (timeout cfg) (world S1))
    as [[r2|e2] w2] eqn:Hinfo; cbn.
  - intros Herr2. destruct (fetch_http_error _ _ _ _ Hinfo Herr2) as [e He].
    rewrite He in Hfetch. rewrite (pipeline_early _ _ _ _ Hfetch).
    eexists _, _, _. split; [reflexivity|]. cbn. repeat split.
  - intros _. rewrite (fetch_transport_error _ _ _ _ Hinfo) in Hfetch.
    rewrite (pipeline_early _ _ _ _ Hfetch).
    eexists _, _, _. split; [reflexivity|]. cbn. repeat split.
Qed.

(** *** Stage 3 *)

Lemma eligible_num_complete t num :
  eligible_num t = Some num <->
  exists items,
    t = PDict items
    /\ dict_lookup items "memberReadingRewardStatus" = Some (PStr "complete")
    /\ num = from_option id PNone (dict_lookup items "workInfoReadingNum").
Proof.
  unfold eligible_num. split.
  - destruct t as [| | | | | |items]; try discriminate.
    destruct (dict_lookup items "memberReadingRewardStatus")
      as [[| | | |st| |]|] eqn:Hl; cbn; try discriminate.
    destruct (String.eqb st "complete") eqn:Hst; [|discriminate].
    apply String.eqb_eq in Hst. subst st. intros [= <-].
    exists items. auto.
  - intros (items & -> & Hst & ->). rewrite Hst. reflexivity.
Qed.

Lemma filter_posted (l : list call) res1 mid p rs :
  l = Call LOGIN p res1 :: mid ++ (claim_call_of <$> rs) ->
  (mid = [] \/ exists res2, mid = [Call DAILY_INFO (PDict []) res2]) ->
  List.filter is_claim_call l = claim_call_of <$> rs.
Proof.
  intros -> Hmid. cbn [List.filter]. rewrite login_call_not_claim.
  rewrite List.filter_app, filter_claim_calls.
  destruct Hmid as [->|[res2 ->]]; [reflexivity|].
  cbn [List.filter]. rewrite info_call_not_claim. reflexivity.
Qed.

(** C3.  The claim calls of a run are made for the tiers of the fetched
    list whose status equals ["complete"], in the order of the list and
    for no other tier: the tiers of the claim calls are a prefix of the
    eligible ones, the tiers of the recorded attempts are taken from
    them in order, each is the identifier of a fetched tier of status
    ["complete"], and so are the claimed tiers. *)
Theorem claims_only_for_complete_tiers cred cfg w :
  exists o s rs,
    login_and_claim cred cfg w = (Ok o, s)
    /\ List.filter is_claim_call (posted s) = claim_call_of <$> rs
    /\ rs.*1 `prefix_of` eligible (fetched_tiers o)
    /\ ca_tier <$> attempts o `sublist_of` eligible (fetched_tiers o)
    /\ Forall (fun a => exists t, t ∈ fetched_tiers o
                                 /\ eligible_num t = Some (ca_tier a)) (attempts o)
    /\ match claimed_tiers o with
       | Some l =>
           l `sublist_of` eligible (fetched_tiers o)
           /\ Forall (fun num => exists t, t ∈ fetched_tiers o
                                          /\ eligible_num t = Some num) l
       | None => True
       end.
Proof.
  destruct (login_and_claim_summary cred cfg w)
    as (s & res1 & mid & rs & Hrun & Hposted & Hmid & Hpre & Hatt & Hclaimed).
  exists (out s), s, rs. split; [exact Hrun|].
  split; [eapply filter_posted; eassumption|].
  split; [exact Hpre|].
  assert (ca_tier <$> attempts (out s) `sublist_of` eligible (fetched_tiers (out s)))
    as Hsub.
  { rewrite Hatt. etrans; [apply omap_attempt_sublist|]. apply prefix_sublist, Hpre. }
  split; [exact Hsub|]. split.
  - apply Forall_forall. intros a Ha.
    assert (ca_tier a ∈ eligible (fetched_tiers (out s))) as Hin.
    { eapply elem_of_sublist; [|exact Hsub]. apply list_elem_of_fmap_2. exact Ha. }
    apply list_elem_of_omap in Hin. exact Hin.
  - destruct (claimed_tiers (out s)) as [l|]; [|exact I].
    destruct (Hclaimed l eq_refl) as [-> Hall].
    assert (omap success_of rs `sublist_of` eligible (fetched_tiers (out s))) as Hl.
    { etrans; [apply omap_success_sublist|]. rewrite <- Hatt. exact Hsub. }
    split; [exact Hl|].
    apply Forall_forall. intros num Hnum.
    apply list_elem_of_omap. eapply elem_of_sublist; eassumption.
Qed.

(** C5, as amended.  The success list, when the outcome has one, is made
    of the tiers of the claim calls that returned a response whose status
    is outside 400..599, in call order: a call that raised, or that
    returned a status in 400..599, contributes nothing. *)
Theorem claimed_tiers_are_accepted_claim_calls cred cfg w :
  exists o s rs,
    login_and_claim cred cfg w = (Ok o, s)
    /\ List.filter is_claim_call (posted s) = claim_call_of <$> rs
    /\ match claimed_tiers o with
       | Some l =>
           l = omap success_of rs
           /\ Forall (fun num => exists r,
                        Call DAILY_CLAIM (claim_payload num) (Ok r) ∈ posted s
                        /\ error_status (status_code r) = false) l
       | None => True
       end.
Proof.
  destruct (login_and_claim_summary cred cfg w)
    as (s & res1 & mid & rs & Hrun & Hposted & Hmid & Hpre & Hatt & Hclaimed).
  exists (out s), s, rs. split; [exact Hrun|].
  assert (List.filter is_claim_call (posted s) = claim_call_of <$> rs) as Hfilter
    by (eapply filter_posted; eassumption).
  split; [exact Hfilter|].
  destruct (claimed_tiers (out s)) as [l|]; [|exact I].
  destruct (Hclaimed l eq_refl) as [-> _]. split; [reflexivity|].
  apply Forall_forall. intros num Hnum.
  destruct (success_of_call _ _ Hnum) as (r & Hin & Herr).
  exists r. split; [|exact Herr].
  apply elem_of_filter_claim_calls. rewrite Hfilter.
  apply (list_elem_of_fmap_2 claim_call_of) in Hin. exact Hin.
Qed.

(** C7.  When the body of the outer [try] raises, whether while the
    tier list is built or while it is iterated, the run still returns:
    the exception is recorded last, under stage [claim_loop], and the
    attempts recorded up to the failure are all in the returned outcome,
    one for each claim call that had returned a response. *)
Theorem claim_loop_error_keeps_attempts cred cfg w info s0 e s1 :
  login_and_fetch cred cfg (start cred cfg w) = (Ok (Some info), s0) ->
  claim_loop cfg info s0 = (Raise e, s1) ->
  exists o s rs,
    login_and_claim cred cfg w = (Ok o, s)
    /\ errors o = errors (out s1) ++ [error_of "claim_loop" e None]
    /\ claim_responses o = claim_responses (out s1)
    /\ List.filter is_claim_call (posted s) = claim_call_of <$> rs
    /\ attempts o = omap attempt_of rs.
Proof.
  intros Hrun Hloop.
  destruct (login_and_fetch_summary cred cfg w)
    as (r' & s0' & res1 & mid & Hrun' & _ & _ & _ & _ & Hcompl & _).
  rewrite Hrun in Hrun'. injection Hrun' as _ <-.
  rewrite <- (entering_id _ Hcompl) in Hloop.
  pose proof (pipeline_claims _ _ _ _ _ _ Hrun (claim_stage_after_raise _ _ _ _ _ Hloop))
    as Hfinal.
  destruct (login_and_claim_summary cred cfg w)
    as (s & res1' & mid' & rs & Hsum & Hposted & Hmid & _ & Hatt & _).
  unfold login_and_claim in *. rewrite Hfinal in Hsum. injection Hsum as _ Hs.
  subst s.
  eexists _, _, rs. split; [exact Hfinal|].
  split; [reflexivity|]. split; [reflexivity|].
  split; [eapply filter_posted; eassumption|exact Hatt].
Qed.

(** C9.  In a run that reaches the claim stage, [claimed_tiers] is set
    exactly when the body of the outer [try] runs to its end; when it
    raises, the handler appends the [claim_loop] record and the key stays
    absent, whatever was claimed before. *)
Theorem claimed_tiers_iff_loop_completes cred cfg w info s0 :
  login_and_fetch cred cfg (start cred cfg w) = (Ok (Some info), s0) ->
  exists o s,
    login_and_claim cred cfg w = (Ok o, s)
    /\ (is_Some (claimed_tiers o) <-> exists s1, claim_loop cfg info s0 = (Ok tt, s1))
    /\ match claim_loop cfg info s0 with
       | (Ok _, s1) =>
           claimed_tiers o = Some (completed s1) /\ errors o = errors (out s1)
       | (Raise e, s1) =>
           claimed_tiers o = None
           /\ errors o = errors (out s1) ++ [error_of "claim_loop" e None]
           /\ claim_responses o = claim_responses (out s1)
       end.
Proof.
  intros Hrun. unfold login_and_claim.
  destruct (login_and_fetch_summary cred cfg w)
    as (r' & s0' & res1 & mid & Hrun' & _ & _ & _ & Hclaimed & Hcompl & _).
  rewrite Hrun in Hrun'. injection Hrun' as _ <-.
  destruct (claim_loop cfg info s0) as [[[]|e] s1] eqn:Hloop;
    destruct (claim_loop_summary _ _ _ _ _ Hloop) as (rs & s1' & _ & Hext & Hend);
    rewrite <- (entering_id _ Hcompl) in Hloop.
  - destruct Hend as [_ ->].
    rewrite (pipeline_claims _ _ _ _ _ _ Hrun (claim_stage_after_ok _ _ _ _ Hloop)).
    eexists _, _. split; [reflexivity|]. cbn.
    split; [|split; reflexivity].
    split; [eauto|]. intros _. eexists. reflexivity.
  - subst s1'. destruct Hext as [_ _ _ _ Hf _].
    injection Hf as _ _ _ _ _ _ Hf. rewrite Hclaimed in Hf.
    rewrite (pipeline_claims _ _ _ _ _ _ Hrun (claim_stage_after_raise _ _ _ _ _ Hloop)).
    eexists _, _. split; [reflexivity|]. cbn. rewrite Hf.
    split; [|repeat split].
    split; [intros [l Hl]; discriminate|intros [s2 Hs2]; discriminate].
Qed.

(** *** The decoder *)

(** C8.  [safe_json] returns on every response: the decoded body when
    [resp.json()] returns, the raw text under the key [_raw] when it
    raises; the state is untouched. *)
Theorem safe_json_never_raises {St} (resp : response) (s : St) :
  exists v,
    safe_json resp s = (Ok v, s)
    /\ match resp_json resp with
       | Ok body => v = body
       | Raise _ => v = PDict [("_raw", PStr (text resp))]
       end.
Proof.
  exists (decoded resp). split; [apply safe_json_run|].
  unfold resp_json, decoded. destruct (json_body resp); reflexivity.
Qed.

(** *** The login payload *)

Lemma info_url_not_login : DAILY_INFO <> LOGIN.
Proof. vm_compute. discriminate. Qed.

Lemma claim_url_not_login : DAILY_CLAIM <> LOGIN.
Proof. vm_compute. discriminate. Qed.

(** C10.  The first call of a run is the login call, its payload holds
    the phone and, as password, the MD5 hex digest of the shared
    password base followed by the account's code; no later call goes to
    the login endpoint. *)
Theorem login_password_is_md5_of_base_then_code cred cfg w :
  exists o s res rest,
    login_and_claim cred cfg w = (Ok o, s)
    /\ posted s
       = Call LOGIN
           (PDict [("phone", PStr (cred_phone cred));
                   ("password",
                    PStr (Md5.hexdigest (password cfg +:+ cred_code cred)))])
           res :: rest
    /\ Forall (fun c => call_url c <> LOGIN) rest.
Proof.
  destruct (login_and_claim_summary cred cfg w)
    as (s & res1 & mid & rs & Hrun & Hposted & Hmid & _).
  exists (out s), s, res1, (mid ++ (claim_call_of <$> rs)).
  split; [exact Hrun|]. split; [exact Hposted|].
  apply Forall_app. split.
  - destruct Hmid as [->|[res2 ->]]; [constructor|].
    repeat constructor. exact info_url_not_login.
  - apply Forall_fmap, Forall_forall. intros nr _. exact claim_url_not_login.
Qed.

(** *** The orchestrator *)

Lemma login_and_claim_returns cred cfg w :
  exists o s, login_and_claim cred cfg w = (Ok o, s) /\ o = out s.
Proof.
  destruct (login_and_claim_summary cred cfg w) as (s & ? & ? & ? & Hrun & _).
  eauto.
Qed.

Lemma submit_all_ok cfg jobs :
  submit_all cfg jobs = Ok <$> (outcome_of cfg <$> jobs).
Proof.
  unfold submit_all, outcome_of. rewrite <- list_fmap_compose.
  apply list_fmap_ext. intros i [cred w] _. cbn.
  destruct (login_and_claim_returns cred cfg w) as (o & s & -> & ->). reflexivity.
Qed.

Lemma as_completed_fmap {A B} (f : A -> B) order (l : list A) :
  as_completed order (f <$> l) = f <$> as_completed order l.
Proof.
  unfold as_completed. induction order as [|i order IH]; [reflexivity|].
  cbn. rewrite list_lookup_fmap, IH. destruct (l !! i); reflexivity.
Qed.

Lemma as_completed_seq {A} (l : list A) : forall pre,
  as_completed (seq (length pre) (length l)) (pre ++ l) = l.
Proof.
  unfold as_completed. induction l as [|x l IH]; intros pre; [reflexivity|].
  cbn. rewrite list_lookup_middle by reflexivity. cbn. f_equal.
  specialize (IH (pre ++ [x])). rewrite length_app, Nat.add_1_r in IH.
  rewrite <- app_assoc in IH. exact IH.
Qed.

Lemma as_completed_perm {A} order (l : list A) :
  order ≡ₚ seq 0 (length l) -> as_completed order l ≡ₚ l.
Proof.
  intros Hperm. unfold as_completed. rewrite Hperm.
  pose proof (as_completed_seq l []) as Hseq. unfold as_completed in Hseq.
  cbn in Hseq. rewrite Hseq. reflexivity.
Qed.

Lemma collect_ok (os acc : list outcome) : collect (Ok <$> os) acc = Ok (acc ++ os).
Proof.
  revert acc. induction os as [|o os IH]; intros acc; cbn.
  - rewrite app_nil_r. reflexivity.
  - rewrite IH, <- app_assoc. reflexivity.
Qed.

(** C4.  The pipeline returns an outcome on every input, whatever the
    replies, and never raises; [main], which collects the futures in
    their order of completion, ends with one outcome per account. *)
Theorem one_outcome_per_account cfg (jobs : list (credential * W)) order :
  order ≡ₚ seq 0 (length jobs) ->
  (forall cred w, exists o s, login_and_claim cred cfg w = (Ok o, s) /\ o = out s)
  /\ exists results,
       main_results cfg jobs order = Ok results
       /\ length results = length jobs
       /\ results ≡ₚ outcome_of cfg <$> jobs.
Proof.
  intros Hperm. split; [intros cred w; apply login_and_claim_returns|].
  unfold main_results. rewrite submit_all_ok, as_completed_fmap, collect_ok.
  eexists. split; [reflexivity|]. cbn.
  assert (as_completed order (outcome_of cfg <$> jobs) ≡ₚ outcome_of cfg <$> jobs)
    as Hres by (apply as_completed_perm; rewrite length_fmap; exact Hperm).
  split; [|exact Hres].
  rewrite Hres, length_fmap. reflexivity.
Qed.

(** ** The stages as functions of the replies *)

Lemma raise_for_status_http {St} (resp : response) (s : St) :
  raise_for_status resp s
  = (match http_error resp with Some e => Raise e | None => Ok tt end, s).
Proof.
  unfold raise_for_status, lift, raise_for_status_result, http_error.
  destruct (http_error_msg resp); reflexivity.
Qed.

Lemma http_error_status (r : response) :
  http_error r = None <-> error_status (status_code r) = false.
Proof.
  unfold http_error, http_error_msg, error_status.
  destruct (400 <=? status_code r) eqn:Hlo, (status_code r <? 500) eqn:H5,
    (500 <=? status_code r) eqn:H6, (status_code r <? 600) eqn:H7;
    cbn; split; intros H; try reflexivity; try discriminate; lia.
Qed.

Lemma tier_items_list (info : value) :
  tier_items info = match tier_list info with Ok items => items | Raise _ => [] end.
Proof.
  unfold tier_items, tier_list.
  destruct (py_get info "result" (PDict [])) as [res|e]; [|reflexivity].
  destruct (py_get res "memberReadingRewardDetailVoList" (PList [])); reflexivity.
Qed.

Lemma login_failure_rejected (res : result response) :
  login_failure res = None <-> ~ login_rejected res.
Proof.
  unfold login_failure, login_rejected, login_granted.
  destruct res as [r|e]; [|split; [discriminate|tauto]].
  destruct (http_error r) as [e|] eqn:Hhttp.
  - split; [discriminate|]. intros H. exfalso. apply H. left.
    destruct (error_status (status_code r)) eqn:Herr; [reflexivity|].
    apply http_error_status in Herr. congruence.
  - apply http_error_status in Hhttp. rewrite Hhttp.
    destruct (py_get (decoded r) "result" (PDict [])) as [res|e].
    2:{ split; [discriminate|]. intros H. exfalso. apply H. right. reflexivity. }
    destruct (py_get res "token" PNone) as [token|e],
             (py_get res "tokenHead" PNone) as [head|e'];
      try (split; [discriminate|]; intros H; exfalso; apply H; right; reflexivity).
    destruct (truthy token), (truthy head); cbn;
      try (split; [discriminate|]; intros H; exfalso; apply H; right; reflexivity).
    split; [|reflexivity]. intros _ [H|H]; discriminate.
Qed.

(** Stage 1 stops on [e]: the reply is recorded when there is one, and
    the only error record is that of [e]. *)
Lemma login_stopped cred cfg w e :
  login_failure (login_reply cred cfg w).1 = Some e ->
  login_and_fetch cred cfg (start cred cfg w)
  = (Ok None,
     at_stage (login_reply cred cfg w).2 (make_session cfg)
       (append_error (error_of "login" e None)
          (recorded_login cred w (login_reply cred cfg w).1))
       [Call LOGIN (login_payload cred cfg) (login_reply cred cfg w).1]).
Proof.
  unfold login_reply, login_payload, login_failure, at_stage, recorded_login.
  unfold login_and_fetch, login_stage, login_body, start. mstep.
  destruct (post _ LOGIN _ _ w) as [[r1|e1] w1]; cbn [fst snd].
  2:{ intros [= ->]. reflexivity. }
  rewrite safe_json_run. mstep. rewrite raise_for_status_http.
  destruct (http_error r1) as [e1|]; [intros [= ->]; reflexivity|].
  destruct (py_get (decoded r1) "result" (PDict [])) as [res|e1];
    [|intros [= ->]; reflexivity].
  destruct (py_get res "token" PNone) as [token|e1] eqn:Ht.
  2:{ destruct (py_get res "tokenHead" PNone); intros [= ->]; reflexivity. }
  destruct (py_get res "tokenHead" PNone) as [head|e1] eqn:Hh;
    [|intros [= ->]; reflexivity].
  assert (exists uid, py_get res "sysUserId" PNone = Ok uid) as [uid Hu].
  { destruct res; try discriminate. cbn. eauto. }
  rewrite Hu.
  destruct (negb (truthy token) || negb (truthy head)); [|discriminate].
  intros [= <-]. reflexivity.
Qed.

(** Stage 1 passes: the frame in which stage 2 starts. *)
Lemma login_passed cred cfg w :
  login_failure (login_reply cred cfg w).1 = None ->
  exists r1,
    (login_reply cred cfg w).1 = Ok r1
    /\ error_status (status_code r1) = false
    /\ login_granted (decoded r1) = true
    /\ login_stage cred cfg (start cred cfg w)
       = (Ok true,
          at_stage (login_reply cred cfg w).2 (authorized cfg (decoded r1))
            (logged cred w r1) [Call LOGIN (login_payload cred cfg) (Ok r1)]).
Proof.
  intros Hpass. pose proof (proj1 (login_failure_rejected _) Hpass) as Hok.
  destruct (login_reply cred cfg w) as [[r1|e1] w1] eqn:Hlogin; cbn [fst snd] in *;
    [|discriminate].
  exists r1.
  assert (error_status (status_code r1) = false) as Herr.
  { destruct (error_status (status_code r1)) eqn:E; [|reflexivity].
    exfalso. apply Hok. left. exact E. }
  assert (login_granted (decoded r1) = true) as Hgrant.
  { destruct (login_granted (decoded r1)) eqn:E; [reflexivity|].
    exfalso. apply Hok. right. exact E. }
  repeat split; try assumption.
  apply login_accepted; assumption.
Qed.

(** Stage 2, from the frame that stage 1 leaves. *)
Lemma fetch_stage_run cfg s :
  fetch_info_stage cfg s
  = let res := post (sess s) DAILY_INFO (PDict []) (timeout cfg) (world s) in
    let s' o :=
      {| world := res.2; sess := sess s; out := o; rr := rr s;
         completed := completed s;
         posted := posted s ++ [Call DAILY_INFO (PDict []) res.1] |} in
    match fetch_failure res.1 with
    | Some e =>
        (Ok None,
         s' (append_error (error_of "fetch_info" e None) (recorded_info (out s) res.1)))
    | None => (Ok (reply_body res.1), s' (recorded_info (out s) res.1))
    end.
Proof.
  unfold fetch_info_stage, fetch_info_body. mstep.
  destruct (post (sess s) DAILY_INFO (PDict []) (timeout cfg) (world s))
    as [[r2|e2] w2]; cbn [fst snd fetch_failure]; [|reflexivity].
  rewrite safe_json_run. mstep. rewrite raise_for_status_http.
  destruct (http_error r2); reflexivity.
Qed.

(** ** The claim loop as a function of the replies *)

Lemma claim_tier_idle cfg x s :
  eligible_num x = None ->
  claim_tier cfg x s = (if is_dict x then Ok tt else Raise (no_get x), s).
Proof.
  unfold eligible_num, claim_tier.
  destruct x as [| | | | | |items]; try reflexivity.
  unfold bind at 1. unfold lift at 1. cbn [py_get is_dict].
  destruct (eq_str _ "complete"); [discriminate|reflexivity].
Qed.

(** One turn of the loop on an eligible tier, by the reply to its claim
    call and by what [rr] holds. *)
Lemma claim_tier_call cfg x num s :
  eligible_num x = Some num ->
  claim_tier cfg x s
  = let res := post (sess s) DAILY_CLAIM (claim_payload num) (timeout cfg) (world s) in
    let log := posted s ++ [Call DAILY_CLAIM (claim_payload num) res.1] in
    match res.1 with
    | Ok r =>
        let o := append_claim_response
                   (ClaimAttempt num (status_code r) (decoded r)) (out s) in
        (Ok tt,
         {| world := sleep_random_uniform res.2; sess := sess s;
            out := match http_error r with
                   | Some e => append_error (claim_error num e r) o
                   | None => o
                   end;
            rr := Some r;
            completed := match http_error r with
                         | Some _ => completed s
                         | None => completed s ++ [num]
                         end;
            posted := log |})
    | Raise e =>
        match rr s with
        | Some r0 =>
            (Ok tt,
             {| world := sleep_random_uniform res.2; sess := sess s;
                out := append_error (claim_error num e r0) (out s);
                rr := Some r0; completed := completed s; posted := log |})
        | None =>
            (Raise unbound_rr,
             {| world := res.2; sess := sess s; out := out s; rr := None;
                completed := completed s; posted := log |})
        end
    end.
Proof.
  intros Hx. rewrite (claim_tier_eligible _ _ _ Hx).
  unfold claim_call, claim_handler, claim_payload, claim_error, unbound_rr. mstep.
  destruct (post (sess s) DAILY_CLAIM (PDict [("workInfoReadingNum", num)])
              (timeout cfg) (world s)) as [[r|e] w1]; cbn [fst snd].
  - rewrite safe_json_run. mstep. rewrite raise_for_status_http.
    destruct (http_error r); [|reflexivity].
    mstep. rewrite safe_json_run. reflexivity.
  - mstep. destruct (rr s) as [r0|]; [|reflexivity].
    rewrite safe_json_run. reflexivity.
Qed.

Lemma tracks_refl s : tracks s s [].
Proof.
  split; cbn; rewrite ?app_nil_r; try reflexivity. apply extends_refl.
Qed.

Lemma claim_errors_app prior rs1 rs2 :
  claim_errors prior (rs1 ++ rs2)
  = claim_errors prior rs1 ++ claim_errors (last_response prior rs1) rs2.
Proof.
  revert prior. induction rs1 as [|[num [r|e]] rs1 IH]; intros prior; cbn.
  - reflexivity.
  - rewrite IH, app_assoc. reflexivity.
  - rewrite IH, app_assoc. reflexivity.
Qed.

Lemma last_response_app prior rs1 rs2 :
  last_response prior (rs1 ++ rs2) = last_response (last_response prior rs1) rs2.
Proof.
  revert prior. induction rs1 as [|[num [r|e]] rs1 IH]; intros prior; cbn; auto.
Qed.

Lemma tracks_trans s0 s1 s2 rs1 rs2 :
  tracks s0 s1 rs1 -> tracks s1 s2 rs2 -> tracks s0 s2 (rs1 ++ rs2).
Proof.
  intros [He1 Hr1 Hl1 Hi1 Hs1] [He2 Hr2 Hl2 Hi2 Hs2]. split.
  - eapply extends_trans; eassumption.
  - rewrite Hr2, Hr1, Hl1, claim_errors_app, app_assoc. reflexivity.
  - rewrite Hl2, Hl1, last_response_app. reflexivity.
  - intros [-> ->]%app_eq_nil. rewrite Hi2, Hi1; reflexivity.
  - rewrite omap_app. intros [H1 H2]%app_eq_nil. rewrite Hs2, Hs1; auto.
Qed.

Lemma unbound_failure_bound r0 rs : unbound_failure (Some r0) rs = false.
Proof. reflexivity. Qed.

Lemma unbound_failure_nil prior : unbound_failure prior [] = false.
Proof. destruct prior; reflexivity. Qed.

(** One turn of the loop, with its ledger. *)
Lemma claim_tier_ledger cfg x s r s1 :
  claim_tier cfg x s = (r, s1) ->
  exists rs,
    rs.*1 = option_list (eligible_num x)
    /\ tracks s s1 rs
    /\ match r with
       | Ok _ => is_dict x = true /\ unbound_failure (rr s) rs = false
       | Raise e =>
           (is_dict x = false /\ e = no_get x /\ rs = [])
           \/ (unbound_failure (rr s) rs = true /\ e = unbound_rr)
       end.
Proof.
  destruct (eligible_num x) as [num|] eqn:Hx.
  - assert (is_dict x = true) as Hdict
      by (destruct x; try discriminate; reflexivity).
    rewrite (claim_tier_call _ _ _ _ Hx). cbn zeta.
    destruct (post (sess s) DAILY_CLAIM (claim_payload num) (timeout cfg) (world s))
      as [[r0|e] w1]; cbn [fst snd].
    + intros [= <- <-]. exists [(num, Ok r0)]. split; [reflexivity|].
      split; [|split; [exact Hdict|destruct (rr s); reflexivity]].
      pose proof (http_error_status r0) as Hst.
      destruct (http_error r0) as [e|] eqn:Hhttp.
      * assert (error_status (status_code r0) = true) as Herr.
        { destruct (error_status (status_code r0)); [reflexivity|].
          destruct Hst as [_ Hst]. discriminate (Hst eq_refl). }
        split; [split|..]; cbn; unfold attempt_of, success_of; cbn;
          rewrite ?Hhttp, ?Herr, ?app_nil_r; try reflexivity; try discriminate.
        apply prefix_app_r. reflexivity.
      * assert (error_status (status_code r0) = false) as Herr by (apply Hst; reflexivity).
        split; [split|..]; cbn; unfold attempt_of, success_of; cbn;
          rewrite ?Hhttp, ?Herr, ?app_nil_r; try reflexivity; discriminate.
    + destruct (rr s) as [r0|] eqn:Hrr.
      * intros [= <- <-]. exists [(num, Raise e)]. split; [reflexivity|].
        split; [|split; [exact Hdict|reflexivity]].
        split; [split|..]; cbn; rewrite ?Hrr, ?app_nil_r; try reflexivity;
          try discriminate.
        apply prefix_app_r. reflexivity.
      * intros [= <- <-]. exists [(num, Raise e)]. split; [reflexivity|].
        split; [|right; split; reflexivity].
        split; [split|..]; cbn; rewrite ?Hrr, ?app_nil_r; try reflexivity;
          discriminate.
  - rewrite (claim_tier_idle _ _ _ Hx).
    destruct (is_dict x) eqn:Hdict; intros [= <- <-]; exists [];
      (split; [reflexivity|]); (split; [apply tracks_refl|]).
    + split; [reflexivity|apply unbound_failure_nil].
    + left. auto.
Qed.

Lemma unbound_failure_app prior rs1 rs2 :
  unbound_failure prior (rs1 ++ rs2)
  = match rs1 with [] => unbound_failure prior rs2 | _ => unbound_failure prior rs1 end.
Proof. destruct prior as [p|], rs1 as [|[num [r|e]] rs1]; reflexivity. Qed.

Lemma last_response_some r rs : exists r', last_response (Some r) rs = Some r'.
Proof.
  revert r. induction rs as [|[num [r0|e]] rs IH]; intros r; cbn; eauto.
Qed.

Lemma last_response_bound prior rs :
  rs <> [] -> unbound_failure prior rs = false ->
  exists r', last_response prior rs = Some r'.
Proof.
  destruct rs as [|[num [r0|e]] rs]; [congruence|..]; intros _; cbn.
  - intros _. apply last_response_some.
  - destruct prior as [r1|]; [|discriminate]. intros _. apply last_response_some.
Qed.

(** The loop, with its ledger: it ends on an exception only at a tier
    that is not a [dict] or at a claim call that raises while [rr] is
    unbound, and such a call is the first and the last. *)
Lemma for_each_claim_tier_ledger cfg items : forall s r s',
  for_each (claim_tier cfg) items s = (r, s') ->
  exists rs,
    rs.*1 `prefix_of` eligible items
    /\ tracks s s' rs
    /\ (unbound_failure (rr s) rs = true -> exists num e, rs = [(num, Raise e)])
    /\ match r with
       | Ok _ =>
           rs.*1 = eligible items
           /\ forallb is_dict items = true
           /\ unbound_failure (rr s) rs = false
       | Raise e =>
           (unbound_failure (rr s) rs = false
            /\ exists x, x ∈ items /\ is_dict x = false /\ e = no_get x)
           \/ (unbound_failure (rr s) rs = true /\ e = unbound_rr)
       end.
Proof.
  induction items as [|x items IH]; intros s r s'; cbn [for_each].
  - intros [= <- <-]. exists []. split; [reflexivity|].
    split; [apply tracks_refl|]. rewrite unbound_failure_nil.
    split; [discriminate|]. auto.
  - unfold bind at 1.
    destruct (claim_tier cfg x s) as [[[]|e] s1] eqn:Hx;
      destruct (claim_tier_ledger _ _ _ _ _ Hx) as (rs1 & Hrs1 & Htr1 & Hend1).
    + intros Hrest.
      destruct (IH _ _ _ Hrest) as (rs2 & Hpre & Htr2 & Hone & Hend2).
      destruct Hend1 as [Hdict Hub1].
      assert (unbound_failure (rr s) (rs1 ++ rs2) = unbound_failure (rr s1) rs2
              /\ (unbound_failure (rr s1) rs2 = true -> rs1 = [])) as [Hub Hnil].
      { rewrite unbound_failure_app. destruct rs1 as [|nr rs1].
        - rewrite (trk_idle _ _ _ Htr1 eq_refl). auto.
        - destruct (last_response_bound (rr s) (nr :: rs1)) as [r' Hr'];
            [discriminate|exact Hub1|].
          rewrite Hub1, (trk_rr _ _ _ Htr1), Hr'. cbn.
          split; [reflexivity|discriminate]. }
      exists (rs1 ++ rs2). rewrite fmap_app, eligible_cons, Hrs1, Hub.
      split; [apply prefix_app; assumption|].
      split; [eapply tracks_trans; eassumption|].
      split.
      { intros Htrue. destruct (Hone Htrue) as (num & e & ->).
        rewrite (Hnil Htrue). eauto. }
      destruct r as [[]|e].
      * destruct Hend2 as (Hall & Hdicts & Hub2).
        rewrite Hall. cbn. rewrite Hdict, Hdicts. auto.
      * destruct Hend2 as [(Hub2 & y & Hy & Hdy & ->)|[Hub2 ->]].
        -- left. split; [exact Hub2|]. exists y. split; [right; exact Hy|]. auto.
        -- right. auto.
    + intros [= <- <-]. exists rs1. rewrite eligible_cons, Hrs1.
      split; [apply prefix_app_r; reflexivity|].
      split; [exact Htr1|].
      destruct Hend1 as [(Hdict & -> & ->)|[Hub ->]].
      * rewrite unbound_failure_nil. split; [discriminate|].
        left. split; [reflexivity|]. exists x. split; [left|]. auto.
      * split; [|right; auto].
        intros _. destruct (rr s); [discriminate|].
        destruct rs1 as [|[num [r0|e0]] rs1]; try discriminate.
        destruct (eligible_num x); destruct rs1; try discriminate. eauto.
Qed.

Lemma claim_loop_unfold cfg info s :
  claim_loop cfg info s
  = match tier_list info with
    | Ok items =>
        (for_each (claim_tier cfg) items ;;
         c <- get_completed ;; update_out (set_claimed_tiers c)) s
    | Raise e => (Raise e, s)
    end.
Proof.
  unfold claim_loop, tier_list.
  unfold bind at 1. unfold lift at 1.
  destruct (py_get info "result" (PDict [])) as [res|e]; [|reflexivity].
  unfold bind at 1. unfold lift at 1.
  destruct (py_get res "memberReadingRewardDetailVoList" (PList [])) as [tiers|e];
    [|reflexivity].
  unfold bind at 1. unfold lift at 1.
  destruct (py_iter tiers) as [items|e]; reflexivity.
Qed.

Lemma claim_stage_ledger cfg info s0 :
  rr s0 = None -> completed s0 = [] ->
  exists s rs,
    claim_stage cfg info s0 = (Ok tt, s)
    /\ rs.*1 `prefix_of` eligible (tier_items info)
    /\ posted s = posted s0 ++ (claim_call_of <$> rs)
    /\ attempts (out s) = attempts (out s0) ++ omap attempt_of rs
    /\ (omap attempt_of rs = [] -> claim_responses (out s) = claim_responses (out s0))
    /\ sess s = sess s0
    /\ (rs = [] -> world s = world s0)
    /\ (fixed_keys (out s)).1 = (fixed_keys (out s0)).1
    /\ stage3_end info rs (out s0) (out s).
Proof.
  intros Hrr Hcompl.
  destruct (claim_loop cfg info (entering s0)) as [r s'] eqn:Hloop.
  pose proof Hloop as Hrun. rewrite (entering_id _ Hcompl), claim_loop_unfold in Hrun.
  rewrite tier_items_list.
  destruct (tier_list info) as [items|e] eqn:Hlist.
  - unfold bind at 1 in Hrun.
    destruct (for_each (claim_tier cfg) items s0) as [[[]|e] s1] eqn:Heach;
      destruct (for_each_claim_tier_ledger _ _ _ _ _ Heach)
        as (rs & Hpre & [[Hp Ha Hc He Hf Hs] Herrs Hlast Hidle Hsilent] & Hone & Hend);
      rewrite Hrr in *.
    + mstep_in Hrun. injection Hrun as <- <-.
      rewrite (claim_stage_after_ok _ _ _ _ Hloop).
      destruct Hend as (Hall & Hdicts & Hub).
      injection Hf as Hph Hts Hls Hlr His Hir Hcl.
      eexists _, rs. split; [reflexivity|]. cbn.
      split; [exact Hpre|]. split; [exact Hp|]. split; [exact Ha|].
      split; [exact Hsilent|]. split; [exact Hs|].
      split; [intros Hnil; rewrite (Hidle Hnil); reflexivity|].
      split; [unfold fixed_keys; cbn; congruence|].
      left. exists items. rewrite Hc, Hcompl. cbn. repeat split; auto.
    + injection Hrun as <- <-.
      rewrite (claim_stage_after_raise _ _ _ _ _ Hloop).
      injection Hf as Hph Hts Hls Hlr His Hir Hcl.
      eexists _, rs. split; [reflexivity|]. cbn.
      split; [exact Hpre|]. split; [exact Hp|]. split; [exact Ha|].
      split; [exact Hsilent|]. split; [exact Hs|].
      split; [intros Hnil; rewrite (Hidle Hnil); reflexivity|].
      split; [unfold fixed_keys; cbn; congruence|].
      right. exists e. cbn.
      split; [exact Hcl|]. rewrite Herrs, <- app_assoc.
      split; [reflexivity|]. right.
      destruct Hend as [(Hub & x & Hx & Hdx & ->)|[Hub ->]].
      * left. split; [exact Hub|]. exists items, x. auto.
      * right. split; [reflexivity|]. apply Hone, Hub.
  - injection Hrun as <- <-.
    rewrite (claim_stage_after_raise _ _ _ _ _ Hloop).
    eexists _, []. split; [reflexivity|]. cbn. rewrite !app_nil_r.
    split; [apply prefix_nil|]. repeat (split; [reflexivity|]).
    right. exists e. split; [reflexivity|]. split; [reflexivity|]. left. auto.
Qed.

(** ** A run as a function of the replies *)

(** The run stops at stage 1. *)
Lemma run_login_stopped cred cfg w e :
  login_failure (login_reply cred cfg w).1 = Some e ->
  login_and_claim cred cfg w
  = let o := append_error (error_of "login" e None)
               (recorded_login cred w (login_reply cred cfg w).1) in
    (Ok o,
     at_stage (login_reply cred cfg w).2 (make_session cfg) o
       [Call LOGIN (login_payload cred cfg) (login_reply cred cfg w).1]).
Proof.
  intros H. unfold login_and_claim.
  rewrite (pipeline_early _ _ _ _ (login_stopped _ _ _ _ H)). reflexivity.
Qed.

(** Stage 2 of a run that passes stage 1. *)
Lemma run_fetch cred cfg w r1 :
  (login_reply cred cfg w).1 = Ok r1 ->
  login_failure (login_reply cred cfg w).1 = None ->
  let res2 := info_reply cfg (decoded r1) (login_reply cred cfg w).2 in
  let calls := [Call LOGIN (login_payload cred cfg) (Ok r1);
                Call DAILY_INFO (PDict []) res2.1] in
  login_and_fetch cred cfg (start cred cfg w)
  = match fetch_failure res2.1 with
    | Some e =>
        (Ok None,
         at_stage res2.2 (authorized cfg (decoded r1))
           (append_error (error_of "fetch_info" e None)
              (recorded_info (logged cred w r1) res2.1)) calls)
    | None =>
        (Ok (reply_body res2.1),
         at_stage res2.2 (authorized cfg (decoded r1))
           (recorded_info (logged cred w r1) res2.1) calls)
    end.
Proof.
  intros Hr1 Hpass.
  destruct (login_passed _ _ _ Hpass) as (r1' & Hr1' & _ & _ & Hstage).
  rewrite Hr1 in Hr1'. injection Hr1' as <-.
  rewrite (login_and_fetch_after_login _ _ _ _ Hstage), fetch_stage_run.
  unfold info_reply, at_stage. cbn [world sess out rr completed posted app].
  destruct (fetch_failure _); reflexivity.
Qed.

(** The run stops at stage 2. *)
Lemma run_fetch_stopped cred cfg w r1 e :
  (login_reply cred cfg w).1 = Ok r1 ->
  login_failure (login_reply cred cfg w).1 = None ->
  fetch_failure (info_reply cfg (decoded r1) (login_reply cred cfg w).2).1 = Some e ->
  login_and_claim cred cfg w
  = let res2 := info_reply cfg (decoded r1) (login_reply cred cfg w).2 in
    let o := append_error (error_of "fetch_info" e None)
               (recorded_info (logged cred w r1) res2.1) in
    (Ok o,
     at_stage res2.2 (authorized cfg (decoded r1)) o
       [Call LOGIN (login_payload cred cfg) (Ok r1);
        Call DAILY_INFO (PDict []) res2.1]).
Proof.
  intros Hr1 Hpass Hfail. pose proof (run_fetch _ _ _ _ Hr1 Hpass) as Hrun.
  cbn zeta in Hrun. rewrite Hfail in Hrun.
  unfold login_and_claim. rewrite (pipeline_early _ _ _ _ Hrun). reflexivity.
Qed.

(** The run reaches stage 3. *)
Lemma run_claims cred cfg w r1 r2 :
  (login_reply cred cfg w).1 = Ok r1 ->
  login_failure (login_reply cred cfg w).1 = None ->
  (info_reply cfg (decoded r1) (login_reply cred cfg w).2).1 = Ok r2 ->
  http_error r2 = None ->
  let w2 := (info_reply cfg (decoded r1) (login_reply cred cfg w).2).2 in
  let o0 := informed (logged cred w r1) r2 in
  exists s rs,
    login_and_claim cred cfg w = (Ok (out s), s)
    /\ rs.*1 `prefix_of` eligible (tier_items (decoded r2))
    /\ posted s = [Call LOGIN (login_payload cred cfg) (Ok r1);
                   Call DAILY_INFO (PDict []) (Ok r2)] ++ (claim_call_of <$> rs)
    /\ attempts (out s) = omap attempt_of rs
    /\ (omap attempt_of rs = [] -> claim_responses (out s) = None)
    /\ sess s = authorized cfg (decoded r1)
    /\ (rs = [] -> world s = w2)
    /\ (fixed_keys (out s)).1 = (fixed_keys o0).1
    /\ stage3_end (decoded r2) rs o0 (out s).
Proof.
  intros Hr1 Hpass Hr2 Hhttp. pose proof (run_fetch _ _ _ _ Hr1 Hpass) as Hrun.
  cbn zeta in Hrun. rewrite Hr2 in Hrun. cbn [fetch_failure reply_body recorded_info] in Hrun.
  rewrite Hhttp in Hrun.
  match type of Hrun with _ = (_, ?s0) =>
    destruct (claim_stage_ledger cfg (decoded r2) s0 eq_refl eq_refl)
      as (s & rs & Hstage & Hpre & Hp & Ha & Hsil & Hs & Hw & Hf & Hend)
  end.
  exists s, rs. unfold login_and_claim.
  rewrite (pipeline_claims _ _ _ _ _ _ Hrun Hstage).
  split; [reflexivity|]. auto 10.
Qed.

Lemma fetch_failure_none (res : result response) :
  fetch_failure res = None -> exists r, res = Ok r /\ http_error r = None.
Proof. destruct res as [r|e]; cbn; [eauto|discriminate]. Qed.

(** The three ways in which a run goes, by the replies to the login
    call and to the info call. *)
Lemma run_cases cred cfg w :
  (exists e, login_failure (login_reply cred cfg w).1 = Some e)
  \/ (exists r1 e,
        (login_reply cred cfg w).1 = Ok r1
        /\ login_failure (login_reply cred cfg w).1 = None
        /\ fetch_failure (info_reply cfg (decoded r1) (login_reply cred cfg w).2).1
           = Some e)
  \/ (exists r1 r2,
        (login_reply cred cfg w).1 = Ok r1
        /\ login_failure (login_reply cred cfg w).1 = None
        /\ (info_reply cfg (decoded r1) (login_reply cred cfg w).2).1 = Ok r2
        /\ http_error r2 = None).
Proof.
  destruct (login_failure (login_reply cred cfg w).1) as [e|] eqn:Hlogin; [eauto|].
  right. destruct (login_passed _ _ _ Hlogin) as (r1 & Hr1 & _).
  destruct (fetch_failure (info_reply cfg (decoded r1) (login_reply cred cfg w).2).1)
    as [e|] eqn:Hfetch.
  - left. eauto.
  - right. destruct (fetch_failure_none _ Hfetch) as (r2 & Hr2 & Hhttp). eauto 8.
Qed.

(** *** What an outcome says of its run *)

(** X1.  The outcome of a run carries the phone of the account it was
    run for and the time at which the run started, whatever the stage at
    which the run ends. *)
Theorem outcome_names_its_account cred cfg w :
  exists o s,
    login_and_claim cred cfg w = (Ok o, s)
    /\ phone o = cred_phone cred
    /\ ts o = now_isoformat w.
Proof.
  destruct (run_cases cred cfg w)
    as [[e He]|[(r1 & e & Hr1 & Hl & Hf)|(r1 & r2 & Hr1 & Hl & Hr2 & Hh)]].
  - rewrite (run_login_stopped _ _ _ _ He). cbn zeta. eexists _, _.
    split; [reflexivity|]. destruct (login_reply cred cfg w).1; split; reflexivity.
  - rewrite (run_fetch_stopped _ _ _ _ _ Hr1 Hl Hf). cbn zeta. eexists _, _.
    split; [reflexivity|]. destruct (info_reply _ _ _).1; split; reflexivity.
  - destruct (run_claims _ _ _ _ _ Hr1 Hl Hr2 Hh)
      as (s & rs & Hrun & _ & _ & _ & _ & _ & _ & Hfix & _).
    exists (out s), s. split; [exact Hrun|].
    injection Hfix as -> -> _ _ _ _. split; reflexivity.
Qed.

(** X2.  The status and the decoded body of the login reply are in the
    outcome whenever the login call returned a response, whether or not
    the run went further; both keys are absent when the call raised. *)
Theorem login_reply_is_recorded cred cfg w :
  exists o s,
    login_and_claim cred cfg w = (Ok o, s)
    /\ login_status_code o = reply_status (login_reply cred cfg w).1
    /\ login_response o = reply_body (login_reply cred cfg w).1.
Proof.
  destruct (run_cases cred cfg w)
    as [[e He]|[(r1 & e & Hr1 & Hl & Hf)|(r1 & r2 & Hr1 & Hl & Hr2 & Hh)]].
  - rewrite (run_login_stopped _ _ _ _ He). cbn zeta. eexists _, _.
    split; [reflexivity|]. destruct (login_reply cred cfg w).1; split; reflexivity.
  - rewrite (run_fetch_stopped _ _ _ _ _ Hr1 Hl Hf). cbn zeta. eexists _, _.
    split; [reflexivity|]. rewrite Hr1.
    destruct (info_reply _ _ _).1; split; reflexivity.
  - destruct (run_claims _ _ _ _ _ Hr1 Hl Hr2 Hh)
      as (s & rs & Hrun & _ & _ & _ & _ & _ & _ & Hfix & _).
    exists (out s), s. split; [exact Hrun|]. rewrite Hr1.
    injection Hfix as _ _ -> -> _ _. split; reflexivity.
Qed.

(** X3.  When the run passes stage 1, the status and the decoded body of
    the info reply are in the outcome whenever the info call returned a
    response, kept through stage 3, and absent when it raised; when the
    run stops at stage 1 both keys are absent. *)
Theorem info_reply_is_recorded cred cfg w :
  exists o s,
    login_and_claim cred cfg w = (Ok o, s)
    /\ match login_failure (login_reply cred cfg w).1, (login_reply cred cfg w).1 with
       | None, Ok r1 =>
           let res2 := (info_reply cfg (decoded r1) (login_reply cred cfg w).2).1 in
           info_status_code o = reply_status res2
           /\ info_response o = reply_body res2
       | _, _ => info_status_code o = None /\ info_response o = None
       end.
Proof.
  destruct (run_cases cred cfg w)
    as [[e He]|[(r1 & e & Hr1 & Hl & Hf)|(r1 & r2 & Hr1 & Hl & Hr2 & Hh)]].
  - rewrite (run_login_stopped _ _ _ _ He). cbn zeta. eexists _, _.
    split; [reflexivity|]. rewrite He.
    destruct (login_reply cred cfg w).1; split; reflexivity.
  - rewrite (run_fetch_stopped _ _ _ _ _ Hr1 Hl Hf). cbn zeta. eexists _, _.
    split; [reflexivity|]. rewrite Hl, Hr1. cbn zeta.
    destruct (info_reply _ _ _).1; split; reflexivity.
  - destruct (run_claims _ _ _ _ _ Hr1 Hl Hr2 Hh)
      as (s & rs & Hrun & _ & _ & _ & _ & _ & _ & Hfix & _).
    exists (out s), s. split; [exact Hrun|]. rewrite Hl, Hr1. cbn zeta. rewrite Hr2.
    injection Hfix as _ _ _ _ -> ->. split; reflexivity.
Qed.

Lemma fetched_tiers_fixed (o o0 : outcome) info :
  (fixed_keys o).1 = (fixed_keys o0).1 ->
  info_response o0 = Some info ->
  fetched_tiers o = tier_items info.
Proof.
  intros Hfix Hinfo. injection Hfix as _ _ _ _ _ Hi.
  unfold fetched_tiers. rewrite Hi, Hinfo. reflexivity.
Qed.

Lemma filter_early_calls p res1 :
  List.filter is_claim_call [Call LOGIN p res1] = [].
Proof. cbn [List.filter]. rewrite login_call_not_claim. reflexivity. Qed.

Lemma filter_two_calls p res1 res2 rs :
  List.filter is_claim_call
    ([Call LOGIN p res1; Call DAILY_INFO (PDict []) res2] ++ (claim_call_of <$> rs))
  = claim_call_of <$> rs.
Proof.
  cbn [app List.filter]. rewrite login_call_not_claim, info_call_not_claim.
  apply filter_claim_calls.
Qed.

(** X4.  A run makes at least one call and at most two calls more than
    there are tiers of status ["complete"] in the fetched list: one login
    call, at most one info call, and never two claim calls for one
    listed tier. *)
Theorem calls_are_bounded cred cfg w :
  exists o s,
    login_and_claim cred cfg w = (Ok o, s)
    /\ (1 <= length (posted s) <= 2 + length (eligible (fetched_tiers o)))%nat.
Proof.
  destruct (run_cases cred cfg w)
    as [[e He]|[(r1 & e & Hr1 & Hl & Hf)|(r1 & r2 & Hr1 & Hl & Hr2 & Hh)]].
  - rewrite (run_login_stopped _ _ _ _ He). cbn zeta. eexists _, _.
    split; [reflexivity|]. cbn. lia.
  - rewrite (run_fetch_stopped _ _ _ _ _ Hr1 Hl Hf). cbn zeta. eexists _, _.
    split; [reflexivity|]. cbn. lia.
  - destruct (run_claims _ _ _ _ _ Hr1 Hl Hr2 Hh)
      as (s & rs & Hrun & Hpre & Hp & _ & _ & _ & _ & Hfix & _).
    exists (out s), s. split; [exact Hrun|].
    rewrite (fetched_tiers_fixed _ _ _ Hfix eq_refl), Hp.
    apply prefix_length in Hpre. rewrite length_fmap in Hpre.
    cbn. rewrite length_fmap. lia.
Qed.

(** X7.  The error records of an outcome follow the calls of the run.
    There is first at most one record for stages 1 and 2, after which no
    claim call is made; then, for each claim call in order, one record
    under the tier of the call when the call returned a status in
    400..599, with the body of that response, or when it raised after an
    earlier claim call had returned, with the body of the last response
    returned; last, at most one record of stage [claim_loop]. *)
Theorem errors_follow_the_calls cred cfg w :
  exists o s rs pre tail,
    login_and_claim cred cfg w = (Ok o, s)
    /\ List.filter is_claim_call (posted s) = claim_call_of <$> rs
    /\ errors o = pre ++ claim_errors None rs ++ tail
    /\ (pre = []
        \/ (rs = [] /\ tail = []
            /\ exists e, pre = [error_of "login" e None]
                        \/ pre = [error_of "fetch_info" e None]))
    /\ (tail = [] \/ exists e, tail = [error_of "claim_loop" e None]).
Proof.
  destruct (run_cases cred cfg w)
    as [[e He]|[(r1 & e & Hr1 & Hl & Hf)|(r1 & r2 & Hr1 & Hl & Hr2 & Hh)]].
  - rewrite (run_login_stopped _ _ _ _ He). cbn zeta.
    eexists _, _, [], [error_of "login" e None], [].
    split; [reflexivity|]. cbn [at_stage posted]. rewrite filter_early_calls.
    split; [reflexivity|]. split; [|split; [right|left]; eauto 6].
    destruct (login_reply cred cfg w).1; reflexivity.
  - rewrite (run_fetch_stopped _ _ _ _ _ Hr1 Hl Hf). cbn zeta.
    eexists _, _, [], [error_of "fetch_info" e None], [].
    split; [reflexivity|]. cbn [at_stage posted].
    rewrite (filter_two_calls _ _ _ [] : List.filter is_claim_call [_; _] = []).
    split; [reflexivity|]. split; [|split; [right|left]; eauto 6].
    destruct (info_reply _ _ _).1; reflexivity.
  - destruct (run_claims _ _ _ _ _ Hr1 Hl Hr2 Hh)
      as (s & rs & Hrun & _ & Hp & _ & _ & _ & _ & _ & Hend).
    destruct Hend as [(items & _ & _ & _ & _ & _ & Herr)|(e & _ & Herr & _)].
    + exists (out s), s, rs, [], []. split; [exact Hrun|].
      rewrite Hp, filter_two_calls. split; [reflexivity|].
      rewrite Herr, app_nil_r. split; [reflexivity|]. auto.
    + exists (out s), s, rs, [], [error_of "claim_loop" e None]. split; [exact Hrun|].
      rewrite Hp, filter_two_calls. split; [reflexivity|].
      rewrite Herr. split; [reflexivity|]. eauto.
Qed.

Lemma claim_errors_nil prior rs :
  claim_errors prior rs = [] ->
  unbound_failure prior rs = false ->
  Forall (fun nr => exists r, nr.2 = Ok r /\ http_error r = None) rs.
Proof.
  revert prior. induction rs as [|[num [r|e]] rs IH]; intros prior; cbn [claim_errors].
  - constructor.
  - destruct (http_error r) eqn:Hhttp; [discriminate|]. cbn [app].
    intros Herrs _. constructor; [eauto|]. apply (IH (Some r)); auto.
  - destruct prior as [r0|]; cbn; discriminate.
Qed.

Lemma accepted_calls rs :
  Forall (fun nr => exists r, nr.2 = Ok r /\ http_error r = None) rs ->
  omap success_of rs = rs.*1
  /\ ca_tier <$> omap attempt_of rs = rs.*1
  /\ Forall (fun a => error_status (ca_status_code a) = false) (omap attempt_of rs).
Proof.
  induction 1 as [|[num res] rs (r & Hr & Hhttp) _ (IH1 & IH2 & IH3)].
  - repeat split. constructor.
  - cbn in Hr. subst res. apply http_error_status in Hhttp.
    assert (success_of (num, Ok r) = Some num) as Hs
      by (unfold success_of; cbn; rewrite Hhttp; reflexivity).
    assert (attempt_of (num, Ok r)
            = Some (ClaimAttempt num (status_code r) (decoded r))) as Ha
      by reflexivity.
    cbn [omap list_omap]. rewrite Hs, Ha. cbn [fmap list_fmap fst].
    fold (omap success_of rs) (omap attempt_of rs).
    change (list_fmap _ _ ca_tier (omap attempt_of rs))
      with (ca_tier <$> omap attempt_of rs).
    change (list_fmap _ _ fst rs) with (rs.*1).
    rewrite IH1, IH2. repeat split. constructor; assumption.
Qed.

(** X8.  An outcome without error records is a full success: the
    success list is there and holds every tier of the fetched list whose
    status equals ["complete"], in the order of the list, each of them
    was attempted once, and every attempt got a status outside
    400..599. *)
Theorem clean_outcome_claims_every_complete_tier cred cfg w o s :
  login_and_claim cred cfg w = (Ok o, s) ->
  errors o = [] ->
  claimed_tiers o = Some (eligible (fetched_tiers o))
  /\ ca_tier <$> attempts o = eligible (fetched_tiers o)
  /\ Forall (fun a => error_status (ca_status_code a) = false) (attempts o).
Proof.
  intros Hrun Hclean.
  destruct (run_cases cred cfg w)
    as [[e He]|[(r1 & e & Hr1 & Hl & Hf)|(r1 & r2 & Hr1 & Hl & Hr2 & Hh)]].
  - rewrite (run_login_stopped _ _ _ _ He) in Hrun. cbn zeta in Hrun.
    injection Hrun as <- _. cbn in Hclean.
    apply app_eq_nil in Hclean as [_ Hclean]. discriminate.
  - rewrite (run_fetch_stopped _ _ _ _ _ Hr1 Hl Hf) in Hrun. cbn zeta in Hrun.
    injection Hrun as <- _. cbn in Hclean.
    apply app_eq_nil in Hclean as [_ Hclean]. discriminate.
  - destruct (run_claims _ _ _ _ _ Hr1 Hl Hr2 Hh)
      as (s' & rs & Hrun' & _ & _ & Hatt & _ & _ & _ & Hfix & Hend).
    rewrite Hrun' in Hrun. injection Hrun as <- <-.
    rewrite (fetched_tiers_fixed _ _ _ Hfix eq_refl), tier_items_list, Hatt.
    destruct Hend as [(items & Hlist & _ & Hall & Hub & Hclaimed & Herr)|(e & _ & Herr & _)].
    + rewrite Hclean in Herr. cbn in Herr. symmetry in Herr.
      destruct (accepted_calls _ (claim_errors_nil _ _ Herr Hub)) as (H1 & H2 & H3).
      rewrite Hlist, Hclaimed, H1, H2, Hall. auto.
    + rewrite Hclean in Herr. symmetry in Herr.
      apply app_eq_nil in Herr as [_ Herr].
      apply app_eq_nil in Herr as [_ Herr]. discriminate.
Qed.


Lemma claim_call_of_fmap_inj (rs rs' : list (value * result response)) :
  claim_call_of <$> rs = claim_call_of <$> rs' -> rs = rs'.
Proof.
  revert rs'. induction rs as [|[num res] rs IH]; intros [|[num' res'] rs']; cbn;
    try discriminate; [reflexivity|].
  intros [= -> -> Hrest]. f_equal. apply IH, Hrest.
Qed.

(** An outcome that holds an info status outside 400..599 comes from a
    run that reached stage 3. *)
Lemma stage3_reached cred cfg w o s c info :
  login_and_claim cred cfg w = (Ok o, s) ->
  info_status_code o = Some c ->
  error_status c = false ->
  info_response o = Some info ->
  exists rs,
    List.filter is_claim_call (posted s) = claim_call_of <$> rs
    /\ rs.*1 `prefix_of` eligible (tier_items info)
    /\ length (posted s) = (2 + length rs)%nat
    /\ attempts o = omap attempt_of rs
    /\ (omap attempt_of rs = [] -> claim_responses o = None)
    /\ exists o0, errors o0 = [] /\ claimed_tiers o0 = None /\ stage3_end info rs o0 o.
Proof.
  intros Hrun Hc Herr Hinfo.
  destruct (run_cases cred cfg w)
    as [[e He]|[(r1 & e & Hr1 & Hl & Hf)|(r1 & r2 & Hr1 & Hl & Hr2 & Hh)]].
  - rewrite (run_login_stopped _ _ _ _ He) in Hrun. cbn zeta in Hrun.
    injection Hrun as <- _.
    destruct (login_reply cred cfg w).1; discriminate.
  - rewrite (run_fetch_stopped _ _ _ _ _ Hr1 Hl Hf) in Hrun. cbn zeta in Hrun.
    injection Hrun as <- _.
    destruct (info_reply _ _ _).1 as [r2|e2]; [|discriminate].
    cbn in Hc, Hf. injection Hc as <-.
    apply http_error_status in Herr. congruence.
  - destruct (run_claims _ _ _ _ _ Hr1 Hl Hr2 Hh)
      as (s' & rs & Hrun' & Hpre & Hp & Hatt & Hsil & _ & _ & Hfix & Hend).
    rewrite Hrun' in Hrun. injection Hrun as <- <-.
    injection Hfix as _ _ _ _ _ Hi. rewrite Hinfo in Hi. cbn in Hi.
    injection Hi as ->.
    exists rs. rewrite Hp, filter_two_calls. split; [reflexivity|].
    split; [exact Hpre|].
    split; [cbn; rewrite length_fmap; reflexivity|].
    split; [exact Hatt|]. split; [exact Hsil|].
    eexists. split; [|split; [|exact Hend]]; reflexivity.
Qed.

Lemma claim_error_stages prior rs :
  unbound_failure prior rs = false ->
  stage <$> claim_errors prior rs
  = (fun nr => "claim_" +:+ py_str nr.1) <$> List.filter failed_call rs.
Proof.
  revert prior. induction rs as [|[num [r|e]] rs IH]; intros prior Hub;
    cbn [claim_errors List.filter].
  - reflexivity.
  - assert (failed_call (num, Ok r) = error_status (status_code r)) as Hf.
    { unfold failed_call, success_of. cbn.
      destruct (error_status (status_code r)); reflexivity. }
    rewrite Hf, fmap_app, (IH (Some r) eq_refl).
    destruct (http_error r) as [e|] eqn:Hhttp.
    + destruct (error_status (status_code r)) eqn:Herr; [reflexivity|].
      apply http_error_status in Herr. congruence.
    + apply http_error_status in Hhttp. rewrite Hhttp. reflexivity.
  - destruct prior as [r0|]; [|discriminate].
    change (failed_call (num, Raise e)) with true.
    rewrite fmap_app, (IH (Some r0) eq_refl). reflexivity.
Qed.

(** X10.  In a run that reaches stage 3 with a tier list made of
    objects, once the first claim call has returned a response no
    failure stops the loop: every tier of status ["complete"] gets its
    claim call, in the order of the list, the success list is there and
    holds the tiers whose call returned a status outside 400..599, and
    the error records are exactly one per other call, each under the
    stage of its tier. *)
Theorem later_failures_do_not_stop_the_loop cred cfg w o s c info items rs :
  login_and_claim cred cfg w = (Ok o, s) ->
  info_status_code o = Some c ->
  error_status c = false ->
  info_response o = Some info ->
  tier_list info = Ok items ->
  forallb is_dict items = true ->
  List.filter is_claim_call (posted s) = claim_call_of <$> rs ->
  unbound_failure None rs = false ->
  rs.*1 = eligible items
  /\ claimed_tiers o = Some (omap success_of rs)
  /\ errors o = claim_errors None rs
  /\ stage <$> errors o
     = (fun nr => "claim_" +:+ py_str nr.1) <$> List.filter failed_call rs.
Proof.
  intros Hrun Hc Herr Hinfo Hlist Hdicts Hcalls Hub.
  destruct (stage3_reached _ _ _ _ _ _ _ Hrun Hc Herr Hinfo)
    as (rs' & Hcalls' & _ & _ & _ & _ & o0 & Ho0 & _ & Hend).
  rewrite Hcalls in Hcalls'. apply claim_call_of_fmap_inj in Hcalls'. subst rs'.
  destruct Hend as [(items' & Hlist' & _ & Hall & _ & Hclaimed & Herrs)
                   |(e & _ & _ & Hwhy)].
  - rewrite Hlist in Hlist'. injection Hlist' as <-. rewrite Ho0 in Herrs.
    cbn in Herrs. rewrite Herrs, (claim_error_stages _ _ Hub). auto.
  - exfalso. destruct Hwhy as [[Hraise _]|[(_ & items' & x & Hlist' & Hx & Hdx & _)
                                         |[_ (num & e0 & ->)]]].
    + congruence.
    + rewrite Hlist in Hlist'. injection Hlist' as <-.
      rewrite forallb_forall in Hdicts. apply list_elem_of_In in Hx.
      rewrite (Hdicts _ Hx) in Hdx. discriminate.
    + discriminate.
Qed.

(** X11.  In a run that reaches stage 3 with a tier list made of objects
    none of which has status ["complete"], the empty list included, no
    claim call is made: the outcome has no error record, an empty
    success list and no claim record. *)
Theorem no_complete_tier_no_claim cred cfg w o s c info items :
  login_and_claim cred cfg w = (Ok o, s) ->
  info_status_code o = Some c ->
  error_status c = false ->
  info_response o = Some info ->
  tier_list info = Ok items ->
  forallb is_dict items = true ->
  eligible items = [] ->
  errors o = []
  /\ claimed_tiers o = Some []
  /\ claim_responses o = None
  /\ length (posted s) = 2%nat.
Proof.
  intros Hrun Hc Herr Hinfo Hlist Hdicts Hnone.
  destruct (stage3_reached _ _ _ _ _ _ _ Hrun Hc Herr Hinfo)
    as (rs & _ & Hpre & Hlen & _ & Hsil & o0 & Ho0 & _ & Hend).
  rewrite tier_items_list, Hlist, Hnone in Hpre.
  apply prefix_nil_inv, fmap_nil_inv in Hpre. subst rs.
  destruct Hend as [(items' & _ & _ & _ & _ & Hclaimed & Herrs)|(e & _ & _ & Hwhy)].
  - rewrite Herrs, Ho0, Hclaimed, Hlen. cbn. auto.
  - exfalso. destruct Hwhy as [[Hraise _]|[(_ & items' & x & Hlist' & Hx & Hdx & _)
                                         |[_ (num & e0 & Hone)]]].
    + congruence.
    + rewrite Hlist in Hlist'. injection Hlist' as <-.
      rewrite forallb_forall in Hdicts. apply list_elem_of_In in Hx.
      rewrite (Hdicts _ Hx) in Hdx. discriminate.
    + discriminate.
Qed.

(** X12.  A [result] that is there but is not an object, an explicit
    null for one, is not taken for an absent one: in a run that reaches
    stage 3 with such an info body the tier list cannot be built, no
    claim call is made, and the outcome has no success list and one
    error record, of stage [claim_loop], for the missing attribute
    [get]. *)
Theorem result_that_is_not_an_object cred cfg w o s c info v :
  login_and_claim cred cfg w = (Ok o, s) ->
  info_status_code o = Some c ->
  error_status c = false ->
  info_response o = Some info ->
  py_get info "result" (PDict []) = Ok v ->
  is_dict v = false ->
  errors o = [error_of "claim_loop" (no_get v) None]
  /\ claimed_tiers o = None
  /\ claim_responses o = None
  /\ length (posted s) = 2%nat.
Proof.
  intros Hrun Hc Herr Hinfo Hres Hv.
  assert (tier_list info = Raise (no_get v)) as Hlist.
  { unfold tier_list. rewrite Hres. destruct v; try discriminate; reflexivity. }
  destruct (stage3_reached _ _ _ _ _ _ _ Hrun Hc Herr Hinfo)
    as (rs & _ & Hpre & Hlen & _ & Hsil & o0 & Ho0 & Hcl0 & Hend).
  rewrite tier_items_list, Hlist in Hpre.
  apply prefix_nil_inv, fmap_nil_inv in Hpre. subst rs.
  destruct Hend as [(items & Hlist' & _)|(e & Hclaimed & Herrs & Hwhy)];
    [congruence|].
  rewrite Herrs, Ho0, Hclaimed, Hcl0, Hlen, (Hsil eq_refl). cbn.
  destruct Hwhy as [[Hraise _]|[(_ & items & x & Hlist' & _)|[_ (num & e0 & Hone)]]];
    [|congruence|discriminate].
  rewrite Hlist in Hraise. injection Hraise as <-. auto.
Qed.

(** X13.  A login reply with a status outside 400..599 and a body that
    does not decode stops the run at stage 1: the raw text is recorded
    as the login response under [_raw], and the one error record, of
    stage [login], says that the token and its prefix are missing. *)
Theorem undecodable_login_body cred cfg w r1 :
  (login_reply cred cfg w).1 = Ok r1 ->
  error_status (status_code r1) = false ->
  json_body r1 = None ->
  exists o s,
    login_and_claim cred cfg w = (Ok o, s)
    /\ errors o = [error_of "login" (Exn ValueError "Missing token/head") None]
    /\ login_response o = Some (PDict [("_raw", PStr (text r1))])
    /\ info_status_code o = None
    /\ length (posted s) = 1%nat.
Proof.
  intros Hr1 Herr Hbody.
  assert (login_failure (login_reply cred cfg w).1
          = Some (Exn ValueError "Missing token/head")) as Hfail.
  { rewrite Hr1. unfold login_failure.
    apply http_error_status in Herr. rewrite Herr.
    unfold decoded. rewrite Hbody. reflexivity. }
  rewrite (run_login_stopped _ _ _ _ Hfail). cbn zeta. rewrite Hr1.
  eexists _, _. split; [reflexivity|]. cbn. unfold decoded. rewrite Hbody.
  repeat split.
Qed.

(** X5.  At the end of a run the session still has the retry policy and
    the three headers that [make_session] gave it, the tenant header
    holding [cfg.sales_id]; it has the [Authorization] and
    [memberInfoId] headers, made of the token prefix, the token and the
    member id of the login body, exactly when the run passed stage 1. *)
Theorem session_headers cred cfg w :
  exists o s,
    login_and_claim cred cfg w = (Ok o, s)
    /\ max_retries (sess s) = max_retries (make_session cfg)
    /\ headers (sess s) !! "Content-Type" = Some "application/json"
    /\ headers (sess s) !! "Accept" = Some "application/json"
    /\ headers (sess s) !! "salesPersonId" = Some (sales_id cfg)
    /\ match login_failure (login_reply cred cfg w).1, (login_reply cred cfg w).1 with
       | None, Ok r1 =>
           let field k := from_option id PNone (result_field (decoded r1) k) in
           headers (sess s) !! "Authorization"
           = Some (py_str (field "tokenHead") +:+ " " +:+ py_str (field "token"))
           /\ headers (sess s) !! "memberInfoId" = Some (py_str (field "sysUserId"))
       | _, _ =>
           headers (sess s) !! "Authorization" = None
           /\ headers (sess s) !! "memberInfoId" = None
       end.
Proof.
  destruct (run_cases cred cfg w)
    as [[e He]|[(r1 & e & Hr1 & Hl & Hf)|(r1 & r2 & Hr1 & Hl & Hr2 & Hh)]].
  - rewrite (run_login_stopped _ _ _ _ He). cbn zeta. eexists _, _.
    split; [reflexivity|]. rewrite He. cbn [at_stage sess].
    repeat split; reflexivity.
  - rewrite (run_fetch_stopped _ _ _ _ _ Hr1 Hl Hf). cbn zeta. eexists _, _.
    split; [reflexivity|]. rewrite Hl, Hr1. cbn [at_stage sess].
    repeat split; reflexivity.
  - destruct (run_claims _ _ _ _ _ Hr1 Hl Hr2 Hh)
      as (s & rs & Hrun & _ & _ & _ & _ & Hs & _).
    exists (out s), s. split; [exact Hrun|]. rewrite Hl, Hr1, Hs.
    repeat split; reflexivity.
Qed.

(** X6.  A login body that has the token and its prefix but no member id
    passes stage 1: the info call is made, with a session whose
    [memberInfoId] header is the text [None]. *)
Theorem missing_member_id_is_sent_as_None cred cfg w r1 :
  (login_reply cred cfg w).1 = Ok r1 ->
  login_failure (login_reply cred cfg w).1 = None ->
  result_field (decoded r1) "sysUserId" = None ->
  headers (authorized cfg (decoded r1)) !! "memberInfoId" = Some "None"
  /\ exists o s rest,
       login_and_claim cred cfg w = (Ok o, s)
       /\ sess s = authorized cfg (decoded r1)
       /\ posted s
          = Call LOGIN (login_payload cred cfg) (Ok r1)
            :: Call DAILY_INFO (PDict [])
                 (info_reply cfg (decoded r1) (login_reply cred cfg w).2).1
            :: rest.
Proof.
  intros Hr1 Hl Huid. split.
  { unfold authorized. cbn [headers]. rewrite Huid. reflexivity. }
  destruct (fetch_failure (info_reply cfg (decoded r1) (login_reply cred cfg w).2).1)
    as [e|] eqn:Hf.
  - rewrite (run_fetch_stopped _ _ _ _ _ Hr1 Hl Hf). cbn zeta.
    eexists _, _, []. repeat split.
  - destruct (fetch_failure_none _ Hf) as (r2 & Hr2 & Hh).
    destruct (run_claims _ _ _ _ _ Hr1 Hl Hr2 Hh)
      as (s & rs & Hrun & _ & Hp & _ & _ & Hs & _).
    exists (out s), s, (claim_call_of <$> rs). rewrite Hr2.
    split; [exact Hrun|]. split; [exact Hs|exact Hp].
Qed.

(** X16.  When a claim call raises after an earlier claim call has
    returned a response, the error record written for it is under the
    stage of its own tier but carries the decoded body of the last
    response returned before it, not a response of the failing call. *)
Theorem error_of_raising_call_carries_earlier_response
  cred cfg w o s pre num e post r0 :
  login_and_claim cred cfg w = (Ok o, s) ->
  List.filter is_claim_call (posted s)
  = claim_call_of <$> (pre ++ (num, Raise e) :: post) ->
  last_response None pre = Some r0 ->
  error_of ("claim_" +:+ py_str num) e (Some (decoded r0)) ∈ errors o.
Proof.
  intros Hrun Hcalls Hlast.
  destruct (run_cases cred cfg w)
    as [[e' He]|[(r1 & e' & Hr1 & Hl & Hf)|(r1 & r2 & Hr1 & Hl & Hr2 & Hh)]].
  - rewrite (run_login_stopped _ _ _ _ He) in Hrun. cbn zeta in Hrun.
    injection Hrun as _ <-. cbn [at_stage posted] in Hcalls.
    rewrite filter_early_calls in Hcalls. destruct pre; discriminate.
  - rewrite (run_fetch_stopped _ _ _ _ _ Hr1 Hl Hf) in Hrun. cbn zeta in Hrun.
    injection Hrun as _ <-. cbn [at_stage posted] in Hcalls.
    rewrite (filter_two_calls _ _ _ [] : List.filter is_claim_call [_; _] = [])
      in Hcalls.
    destruct pre; discriminate.
  - destruct (run_claims _ _ _ _ _ Hr1 Hl Hr2 Hh)
      as (s' & rs & Hrun' & _ & Hp & _ & _ & _ & _ & _ & Hend).
    rewrite Hrun' in Hrun. injection Hrun as <- <-.
    rewrite Hp, filter_two_calls in Hcalls.
    apply claim_call_of_fmap_inj in Hcalls. subst rs.
    assert (error_of ("claim_" +:+ py_str num) e (Some (decoded r0))
            ∈ claim_errors None (pre ++ (num, Raise e) :: post)) as Hin.
    { rewrite claim_errors_app, Hlast. cbn [claim_errors].
      apply elem_of_app. right. left. }
    destruct Hend as [(items & _ & _ & _ & _ & _ & ->)|(e' & _ & -> & _)]; cbn.
    + exact Hin.
    + apply elem_of_app. left. exact Hin.
Qed.

(** X17.  A tier list that is there but cannot be iterated, an explicit
    null for one, is not taken for an absent one either: no claim call is
    made, and the outcome has no success list and one error record, of
    stage [claim_loop], for the failed iteration. *)
Theorem tier_list_that_cannot_be_iterated cred cfg w o s c info res v e :
  login_and_claim cred cfg w = (Ok o, s) ->
  info_status_code o = Some c ->
  error_status c = false ->
  info_response o = Some info ->
  py_get info "result" (PDict []) = Ok res ->
  py_get res "memberReadingRewardDetailVoList" (PList []) = Ok v ->
  py_iter v = Raise e ->
  errors o = [error_of "claim_loop" e None]
  /\ claimed_tiers o = None
  /\ claim_responses o = None
  /\ length (posted s) = 2%nat.
Proof.
  intros Hrun Hc Herr Hinfo Hres Hv He.
  assert (tier_list info = Raise e) as Hlist
    by (unfold tier_list; rewrite Hres, Hv; exact He).
  destruct (stage3_reached _ _ _ _ _ _ _ Hrun Hc Herr Hinfo)
    as (rs & _ & Hpre & Hlen & _ & Hsil & o0 & Ho0 & Hcl0 & Hend).
  rewrite tier_items_list, Hlist in Hpre.
  apply prefix_nil_inv, fmap_nil_inv in Hpre. subst rs.
  destruct Hend as [(items & Hlist' & _)|(e' & Hclaimed & Herrs & Hwhy)];
    [congruence|].
  rewrite Herrs, Ho0, Hclaimed, Hcl0, Hlen, (Hsil eq_refl). cbn.
  destruct Hwhy as [[Hraise _]|[(_ & items & x & Hlist' & _)|[_ (num & e0 & Hone)]]];
    [|congruence|discriminate].
  rewrite Hlist in Hraise. injection Hraise as <-. auto.
Qed.

Lemma for_each_app {St A} (body : A -> M St unit) (l1 l2 : list A) (s : St) :
  for_each body (l1 ++ l2) s
  = match for_each body l1 s with
    | (Ok _, s1) => for_each body l2 s1
    | (Raise e, s1) => (Raise e, s1)
    end.
Proof.
  revert s. induction l1 as [|x l1 IH]; intros s; cbn [app for_each].
  - reflexivity.
  - unfold bind. destruct (body x s) as [[[]|e] s1]; [apply IH|reflexivity].
Qed.

(** X18.  A tier that is not an object stops the loop where it stands.
    In a run that reaches stage 3 with the tiers [pre], all objects,
    then [x], not an object, and in which the first claim call, if any,
    returned, the claim calls are those of the tiers of status
    ["complete"] in [pre]; the tiers listed after [x] are never claimed,
    the outcome has no success list, and the record of stage
    [claim_loop] comes last. *)
Theorem malformed_tier_stops_the_loop cred cfg w o s c info pre x post rs :
  login_and_claim cred cfg w = (Ok o, s) ->
  info_status_code o = Some c ->
  error_status c = false ->
  info_response o = Some info ->
  tier_list info = Ok (pre ++ x :: post) ->
  forallb is_dict pre = true ->
  is_dict x = false ->
  List.filter is_claim_call (posted s) = claim_call_of <$> rs ->
  unbound_failure None rs = false ->
  rs.*1 = eligible pre
  /\ claimed_tiers o = None
  /\ errors o = claim_errors None rs ++ [error_of "claim_loop" (no_get x) None].
Proof.
  intros Hrun Hc Herr Hinfo Hlist Hpre Hx Hcalls Hub.
  destruct (run_cases cred cfg w)
    as [[e He]|[(r1 & e & Hr1 & Hl & Hf)|(r1 & r2 & Hr1 & Hl & Hr2 & Hh)]].
  - rewrite (run_login_stopped _ _ _ _ He) in Hrun. cbn zeta in Hrun.
    injection Hrun as <- _. destruct (login_reply cred cfg w).1; discriminate.
  - rewrite (run_fetch_stopped _ _ _ _ _ Hr1 Hl Hf) in Hrun. cbn zeta in Hrun.
    injection Hrun as <- _.
    destruct (info_reply _ _ _).1 as [r2|e2]; [|discriminate].
    cbn in Hc, Hf. injection Hc as <-.
    apply http_error_status in Herr. congruence.
  - pose proof (run_fetch _ _ _ _ Hr1 Hl) as Hfetch. cbn zeta in Hfetch.
    rewrite Hr2 in Hfetch. cbn [fetch_failure reply_body recorded_info] in Hfetch.
    rewrite Hh in Hfetch.
    match type of Hfetch with _ = (_, ?f) => set (s0 := f) in * end.
    assert (info = decoded r2) as ->.
    { destruct (run_claims _ _ _ _ _ Hr1 Hl Hr2 Hh)
        as (s' & rs' & Hrun' & _ & _ & _ & _ & _ & _ & Hfix & _).
      rewrite Hrun' in Hrun. injection Hrun as <- <-.
      injection Hfix as _ _ _ _ _ Hi. rewrite Hinfo in Hi. cbn in Hi. congruence. }
    destruct (for_each (claim_tier cfg) pre s0) as [r s1] eqn:Heach.
    destruct (for_each_claim_tier_ledger _ _ _ _ _ Heach)
      as (rs1 & _ & [[Hp _ _ _ Hf _] Herrs _ _ _] & _ & Hend).
    assert (claim_loop cfg (decoded r2) (entering s0)
            = (Raise (match r with Ok _ => no_get x | Raise e => e end), s1)) as Hloop.
    { rewrite (entering_id s0 eq_refl), claim_loop_unfold, Hlist.
      unfold bind at 1. rewrite for_each_app, Heach.
      destruct r as [[]|e]; [|reflexivity].
      cbn [for_each]. unfold bind at 1.
      rewrite (claim_tier_idle cfg x s1), Hx; [reflexivity|].
      destruct x; try reflexivity; discriminate. }
    unfold login_and_claim in Hrun.
    rewrite (pipeline_claims _ _ _ _ _ _ Hfetch (claim_stage_after_raise _ _ _ _ _ Hloop))
      in Hrun.
    injection Hrun as <- <-. cbn [posted out] in *.
    rewrite Hp in Hcalls. cbn [s0 at_stage posted] in Hcalls.
    rewrite filter_two_calls in Hcalls. apply claim_call_of_fmap_inj in Hcalls.
    subst rs1. cbn [s0 at_stage rr out] in *.
    injection Hf as _ _ _ _ _ _ Hcl.
    destruct r as [[]|e].
    + destruct Hend as (Hall & _ & _). cbn. rewrite Herrs, Hcl. cbn. auto.
    + exfalso. destruct Hend as [(_ & y & Hy & Hdy & _)|[Htrue _]]; [|congruence].
      rewrite forallb_forall in Hpre. apply list_elem_of_In in Hy.
      rewrite (Hpre _ Hy) in Hdy. discriminate.
Qed.

(** *** The report *)

Lemma outcome_of_phone cfg (job : credential * W) :
  phone (outcome_of cfg job) = cred_phone job.1.
Proof.
  destruct job as [cred w]. unfold outcome_of. cbn [fst snd].
  destruct (run_cases cred cfg w)
    as [[e He]|[(r1 & e & Hr1 & Hl & Hf)|(r1 & r2 & Hr1 & Hl & Hr2 & Hh)]].
  - rewrite (run_login_stopped _ _ _ _ He). cbn.
    destruct (login_reply cred cfg w).1; reflexivity.
  - rewrite (run_fetch_stopped _ _ _ _ _ Hr1 Hl Hf). cbn.
    destruct (info_reply _ _ _).1; reflexivity.
  - destruct (run_claims _ _ _ _ _ Hr1 Hl Hr2 Hh)
      as (s & rs & Hrun & _ & _ & _ & _ & _ & _ & Hfix & _).
    rewrite Hrun. cbn [snd]. injection Hfix as -> _ _ _ _ _. reflexivity.
Qed.

Lemma as_completed_lookup {A} (l : list A) order :
  Forall (fun i => is_Some (l !! i)) order ->
  forall k, as_completed order l !! k = order !! k ≫= (l !!.).
Proof.
  unfold as_completed. induction 1 as [|i order [x Hx] _ IH]; intros k.
  - reflexivity.
  - cbn [omap list_omap]. rewrite Hx. destruct k as [|k]; cbn.
    + exact (eq_sym Hx).
    + apply IH.
Qed.

(** X14.  When every pipeline has finished, the list that [main] writes
    has, at each position, the outcome of the account whose pipeline
    finished at that rank, and the phones of its entries are those of
    the accounts, each once. *)
Theorem report_names_each_account_once cfg (jobs : list (credential * W)) order :
  order ≡ₚ seq 0 (length jobs) ->
  exists results,
    main_results cfg jobs order = Ok results
    /\ phone <$> results ≡ₚ (fun job => cred_phone job.1) <$> jobs
    /\ forall k, results !! k = order !! k ≫= (fun i => outcome_of cfg <$> jobs !! i).
Proof.
  intros Hperm. unfold main_results.
  rewrite submit_all_ok, as_completed_fmap, collect_ok. cbn [app].
  eexists. split; [reflexivity|]. split.
  - rewrite (as_completed_perm order (outcome_of cfg <$> jobs))
      by (rewrite length_fmap; exact Hperm).
    rewrite <- list_fmap_compose.
    erewrite list_fmap_ext; [reflexivity|].
    intros i job _. apply outcome_of_phone.
  - intros k. rewrite as_completed_lookup.
    + destruct (order !! k) as [i|]; [|reflexivity]. cbn.
      apply list_lookup_fmap.
    + apply Forall_forall. intros i Hi. rewrite Hperm in Hi.
      apply elem_of_seq in Hi. apply lookup_lt_is_Some.
      rewrite length_fmap. lia.
Qed.

End Properties.

(** ** Runs in the scripted world *)

Example md5_rfc1321_empty :
  Md5.hexdigest EmptyString = "d41d8cd98f00b204e9800998ecf8427e".
Proof. vm_compute. reflexivity. Qed.

Example md5_rfc1321_abc : Md5.hexdigest "abc" = "900150983cd24fb0d6963f7d28e17f72".
Proof. vm_compute. reflexivity. Qed.

Example md5_rfc1321_message_digest :
  Md5.hexdigest "message digest" = "f96b697d7cb7938d525a2f31aaf161d0".
Proof. vm_compute. reflexivity. Qed.

Example md5_two_blocks :
  Md5.hexdigest "aaaaaaaaaaaaaaaaaaaaaaaaaaaaaaaaaaaaaaaaaaaaaaaaaaaaaaaa"
  = "3b0c8ac703f828b04c6c197006d17218".
Proof. vm_compute. reflexivity. Qed.

(** The first account of the table, with the default password base. *)
Example login_payload_first_account :
  login_payload cred0 cfg0
  = PDict [("phone", PStr "09582811870");
           ("password", PStr "cefbb5f82e98656e8a12eb996c0a2313")].
Proof. vm_compute. reflexivity. Qed.

(** Scenario A of the specification: two complete tiers, both claimed. *)
Example run_two_complete :
  digest_of (run0
               [reply 200 login_ok_body; reply 200 two_complete;
                reply 200 PNone; reply 200 PNone])
  = (Some ([], [(PInt 1, 200); (PInt 2, 200)], Some [PInt 1; PInt 2]),
     [claim_payload (PInt 1); claim_payload (PInt 2)]).
Proof. vm_compute. reflexivity. Qed.

(** Scenario B: login refused. *)
Example run_login_403 :
  digest_of (run0 w_login_403)
  = (Some (["login"], [], None), []).
Proof. vm_compute. reflexivity. Qed.

(** Scenario C: the pending tier is never claimed. *)
Example run_pending_and_complete :
  digest_of (run0 w_pending_and_complete)
  = (Some ([], [(PInt 2, 200)], Some [PInt 2]), [claim_payload (PInt 2)]).
Proof. vm_compute. reflexivity. Qed.

(** A claim answered 500 is recorded under its tier and the next tier
    is claimed. *)
Example run_first_claim_500 :
  digest_of (run0 w_first_claim_500)
  = (Some (["claim_1"], [(PInt 1, 500); (PInt 2, 200)], Some [PInt 2]),
     [claim_payload (PInt 1); claim_payload (PInt 2)]).
Proof. vm_compute. reflexivity. Qed.

(** A claim that times out after an earlier claim returned is recorded
    under its tier, with the response of the earlier claim. *)
Example run_second_claim_times_out :
  digest_of (run0 w_second_claim_times_out)
  = (Some (["claim_2"], [(PInt 1, 200)], Some [PInt 1]),
     [claim_payload (PInt 1); claim_payload (PInt 2)]).
Proof. vm_compute. reflexivity. Qed.

(** A malformed tier after a claimed one: the attempt stays, the success
    list does not appear. *)
Example run_malformed_tier :
  digest_of (run0 w_malformed_tier)
  = (Some (["claim_loop"], [(PInt 1, 200)], None), [claim_payload (PInt 1)]).
Proof. vm_compute. reflexivity. Qed.

(** C2, scenario D of the specification with the failing tier first.
    The claim call for tier 1 times out while [rr] is still unbound: the
    inner handler raises on reading it, so no record scoped to tier 1 is
    written, the outer handler records [claim_loop], tier 2 is never
    attempted and the outcome has no success list. *)
Theorem run_first_claim_times_out :
  digest_of (run0 w_first_claim_times_out)
  = (Some (["claim_loop"], [], None), [claim_payload (PInt 1)]).
Proof. vm_compute. reflexivity. Qed.

(** *** The amended statements at concrete inputs *)

Lemma login_failure_stops_pipeline_witness :
  exists o s e,
    login_and_claim (rt:=scripted) cred0 cfg0 w_login_403 = (Ok o, s)
    /\ errors o = [e] /\ stage e = "login"
    /\ info_status_code o = None /\ info_response o = None
    /\ claim_responses o = None /\ claimed_tiers o = None
    /\ posted s = [Call LOGIN (login_payload cred0 cfg0)
                     (login_reply (rt:=scripted) cred0 cfg0 w_login_403).1].
Proof.
  apply (login_failure_stops_pipeline (rt:=scripted) cred0 cfg0 w_login_403).
  vm_compute. left. reflexivity.
Defined.

Lemma fetch_failure_stops_pipeline_witness :
  exists o s e,
    login_and_claim (rt:=scripted) cred0 cfg0 w_info_503 = (Ok o, s)
    /\ errors o = [e] /\ stage e = "fetch_info"
    /\ claim_responses o = None /\ claimed_tiers o = None
    /\ length (posted s) = 2%nat.
Proof.
  destruct (fetch_failure_stops_pipeline (rt:=scripted) cred0 cfg0 w_info_503
              (Response 200 "OK" BASE "{}" (Some login_ok_body))
              [reply 503 two_complete; reply 200 PNone])
    as (o & s & e & Hrun & Herrors & Hstage & Hresp & Hclaimed & Hposted).
  - reflexivity.
  - reflexivity.
  - reflexivity.
  - vm_compute. reflexivity.
  - exists o, s, e. rewrite Hposted. repeat split; assumption.
Defined.

Lemma claim_loop_error_keeps_attempts_witness :
  exists o s,
    login_and_claim (rt:=scripted) cred0 cfg0 w_malformed_tier = (Ok o, s)
    /\ stage <$> errors o = ["claim_loop"]
    /\ (fun a => (ca_tier a, ca_status_code a)) <$> attempts o = [(PInt 1, 200)].
Proof.
  pose (s0 := (login_and_fetch (rt:=scripted) cred0 cfg0
                 (start (rt:=scripted) cred0 cfg0 w_malformed_tier)).2).
  pose (info := info_body [tier 1 "complete"; PInt 7; tier 3 "complete"]).
  pose (e := Exn AttributeError "'int' object has no attribute 'get'").
  pose (s1 := (claim_loop (rt:=scripted) cfg0 info s0).2).
  destruct (claim_loop_error_keeps_attempts (rt:=scripted)
              cred0 cfg0 w_malformed_tier info s0 e s1)
    as (o & s & rs & Hrun & Herrors & Hresp & _).
  - vm_compute. reflexivity.
  - vm_compute. reflexivity.
  - exists o, s. split; [exact Hrun|].
    unfold attempts. rewrite Herrors, Hresp. vm_compute. split; reflexivity.
Defined.

Lemma claimed_tiers_iff_loop_completes_witness :
  exists o s,
    login_and_claim (rt:=scripted) cred0 cfg0 w_malformed_tier = (Ok o, s)
    /\ claimed_tiers o = None
    /\ (fun a => (ca_tier a, ca_status_code a)) <$> attempts o = [(PInt 1, 200)].
Proof.
  pose (s0 := (login_and_fetch (rt:=scripted) cred0 cfg0
                 (start (rt:=scripted) cred0 cfg0 w_malformed_tier)).2).
  pose (info := info_body [tier 1 "complete"; PInt 7; tier 3 "complete"]).
  pose (e := Exn AttributeError "'int' object has no attribute 'get'").
  pose (s1 := (claim_loop (rt:=scripted) cfg0 info s0).2).
  assert (claim_loop (rt:=scripted) cfg0 info s0 = (Raise e, s1)) as Hloop
    by (vm_compute; reflexivity).
  destruct (claimed_tiers_iff_loop_completes (rt:=scripted)
              cred0 cfg0 w_malformed_tier info s0)
    as (o & s & Hrun & _ & Hcases).
  - vm_compute. reflexivity.
  - exists o, s. split; [exact Hrun|].
    rewrite Hloop in Hcases. destruct Hcases as (Hclaimed & _ & Hresp).
    split; [exact Hclaimed|].
    unfold attempts. rewrite Hresp. vm_compute. reflexivity.
Defined.

Lemma one_outcome_per_account_witness :
  exists results,
    main_results (rt:=scripted) cfg0
      [(cred0, w_login_403); (cred0, w_pending_and_complete)] [1; 0]%nat
    = Ok results
    /\ length results = 2%nat.
Proof.
  destruct (one_outcome_per_account (rt:=scripted) cfg0
              [(cred0, w_login_403); (cred0, w_pending_and_complete)] [1; 0]%nat)
    as (_ & results & Hmain & Hlen & _).
  - apply perm_swap.
  - exists results. split; assumption.
Defined.

(** *** The statements of the specification at the inputs where they fail *)

(** C1 as worded fails twice: a login body that has [token] and
    [tokenHead] but no member id, and a login answered 304, both let the
    pipeline go on to the info call. *)
Lemma login_failure_claim_fails :
  ~ login_failure_claim_at scripted cred0 cfg0 w_no_uid
  /\ ~ login_failure_claim_at scripted cred0 cfg0 w_login_304.
Proof.
  split; intros H.
  - destruct (H (Response 200 "OK" BASE "{}" (Some login_body_no_uid))
                [reply 200 two_complete; reply 200 PNone; reply 200 PNone]
                eq_refl (or_intror eq_refl))
      as (o & s & e & Hrun & _ & _ & Hinfo & _).
    vm_compute in Hrun. injection Hrun as Ho _. subst o. discriminate Hinfo.
  - destruct (H (Response 304 "OK" BASE "{}" (Some login_ok_body))
                [reply 200 two_complete; reply 200 PNone; reply 200 PNone]
                eq_refl (or_introl eq_refl))
      as (o & s & e & Hrun & _ & _ & Hinfo & _).
    vm_compute in Hrun. injection Hrun as Ho _. subst o. discriminate Hinfo.
Qed.

(** C6 as worded fails when the info call is answered 304: the tiers of
    its body are claimed. *)
Lemma fetch_failure_claim_fails :
  ~ fetch_failure_claim_at scripted cred0 cfg0 w_info_304.
Proof.
  intros H.
  destruct (H (Response 200 "OK" BASE "{}" (Some login_ok_body))
              [reply 304 two_complete; reply 200 PNone; reply 200 PNone]
              (Response 304 "OK" BASE "{}" (Some two_complete))
              [reply 200 PNone; reply 200 PNone]
              eq_refl eq_refl eq_refl eq_refl eq_refl)
    as (o & s & e & Hrun & Herrors & _).
  vm_compute in Hrun. injection Hrun as Ho _. subst o. discriminate Herrors.
Qed.

(** C5 as worded fails when a claim call is answered 304: its tier is in
    the success list. *)
Lemma success_list_claim_fails :
  ~ success_list_claim_at scripted cred0 cfg0 w_claim_304.
Proof.
  intros H.
  destruct (login_and_claim (rt:=scripted) cred0 cfg0 w_claim_304) as [[o|e] s] eqn:Hrun;
    pose proof Hrun as Hval; vm_compute in Hval; [|discriminate].
  injection Hval as Ho Hs.
  destruct (H o s [PInt 1; PInt 2] (PInt 1) Hrun) as (r & Hin & Hstatus).
  - subst o. reflexivity.
  - left.
  - subst s.
    repeat (apply elem_of_cons in Hin as [Hin|Hin];
            [try discriminate Hin;
             try (injection Hin as ->; discriminate Hstatus)|]).
    inversion Hin.
Qed.

(** ** The format of the password proof *)

Lemma hex_digit_lower d : 0 <= d < 16 -> is_lower_hex (Md5.hex_digit d) = true.
Proof.
  intros Hd.
  assert (d = 0 \/ d = 1 \/ d = 2 \/ d = 3 \/ d = 4 \/ d = 5 \/ d = 6 \/ d = 7
          \/ d = 8 \/ d = 9 \/ d = 10 \/ d = 11 \/ d = 12 \/ d = 13 \/ d = 14
          \/ d = 15) as Hcases by lia.
  repeat (destruct Hcases as [->|Hcases]; [reflexivity|]). subst d. reflexivity.
Qed.

Lemma hex_lower bs :
  Forall (fun b => 0 <= b < 256) bs ->
  String.length (Md5.hex bs) = (2 * length bs)%nat
  /\ Forall (fun a => is_lower_hex a = true) (list_ascii_of_string (Md5.hex bs)).
Proof.
  induction 1 as [|b bs Hb _ [IHlen IHhex]]; cbn [Md5.hex].
  - split; [reflexivity|constructor].
  - cbn [String.length list_ascii_of_string length]. split; [lia|].
    constructor; [apply hex_digit_lower; split;
                    [apply Z.div_pos; lia|apply Z.div_lt_upper_bound; lia]|].
    constructor; [apply hex_digit_lower, Z.mod_pos_bound; lia|exact IHhex].
Qed.

Lemma le_bytes_range n x : Forall (fun b => 0 <= b < 256) (Md5.le_bytes n x).
Proof.
  revert x. induction n as [|n IH]; intros x; cbn [Md5.le_bytes]; constructor.
  - apply Z.mod_pos_bound. lia.
  - apply IH.
Qed.

Lemma le_bytes_length n x : length (Md5.le_bytes n x) = n.
Proof. revert x. induction n as [|n IH]; intros x; cbn; [|rewrite IH]; reflexivity. Qed.

Lemma digest_bytes msg :
  length (Md5.digest msg) = 16%nat /\ Forall (fun b => 0 <= b < 256) (Md5.digest msg).
Proof.
  unfold Md5.digest. cbn zeta.
  destruct (foldl Md5.compress Md5.init _) as [[[a b] c] d]. split.
  - rewrite !length_app, !le_bytes_length. reflexivity.
  - repeat (apply Forall_app; split); apply le_bytes_range.
Qed.

(** X15.  Whatever the password base and the code of the account, the
    password field of the login payload is a string of 32 characters,
    each a digit or a letter from [a] to [f]. *)
Theorem password_proof_is_32_hex_digits cred cfg :
  exists p,
    login_payload cred cfg
    = PDict [("phone", PStr (cred_phone cred)); ("password", PStr p)]
    /\ String.length p = 32%nat
    /\ Forall (fun a => is_lower_hex a = true) (list_ascii_of_string p).
Proof.
  eexists. split; [reflexivity|]. unfold Md5.hexdigest.
  destruct (digest_bytes (Md5.bytes_of_string (password cfg +:+ cred_code cred)))
    as [Hlen Hrange].
  destruct (hex_lower _ Hrange) as [Hl Hh]. rewrite Hlen in Hl. auto.
Qed.

(** ** The further properties at concrete inputs *)

Lemma clean_outcome_claims_every_complete_tier_witness :
  let o := out (run0 w_pending_and_complete).2 in
  claimed_tiers o = Some (eligible (fetched_tiers o))
  /\ ca_tier <$> attempts o = eligible (fetched_tiers o)
  /\ Forall (fun a => error_status (ca_status_code a) = false) (attempts o).
Proof.
  apply (clean_outcome_claims_every_complete_tier (rt:=scripted)
           cred0 cfg0 w_pending_and_complete _ (run0 w_pending_and_complete).2).
  - vm_compute. reflexivity.
  - vm_compute. reflexivity.
Defined.


Lemma later_failures_do_not_stop_the_loop_witness :
  let o := out (run0 w_mixed).2 in
  let rs := [(PInt 1, reply 200 (PInt 1)); (PInt 2, reply 500 (PInt 2));
             (PInt 3, timed_out)] in
  rs.*1 = eligible [tier 1 "complete"; tier 2 "complete"; tier 3 "complete"]
  /\ claimed_tiers o = Some (omap success_of rs)
  /\ errors o = claim_errors (rt:=scripted) None rs
  /\ stage <$> errors o
     = (fun nr => "claim_" +:+ py_str (rt:=scripted) nr.1) <$> List.filter failed_call rs.
Proof.
  apply (later_failures_do_not_stop_the_loop (rt:=scripted)
           cred0 cfg0 w_mixed _ (run0 w_mixed).2 200
           (info_body [tier 1 "complete"; tier 2 "complete"; tier 3 "complete"])).
  - vm_compute. reflexivity.
  - vm_compute. reflexivity.
  - reflexivity.
  - vm_compute. reflexivity.
  - reflexivity.
  - reflexivity.
  - vm_compute. reflexivity.
  - reflexivity.
Defined.

Lemma no_complete_tier_no_claim_witness :
  let run := run0 w_all_pending in
  errors (out run.2) = []
  /\ claimed_tiers (out run.2) = Some []
  /\ claim_responses (out run.2) = None
  /\ length (posted run.2) = 2%nat.
Proof.
  apply (no_complete_tier_no_claim (rt:=scripted)
           cred0 cfg0 w_all_pending _ (run0 w_all_pending).2 200
           (info_body [tier 1 "pending"; tier 2 "incomplete"])
           [tier 1 "pending"; tier 2 "incomplete"]).
  - vm_compute. reflexivity.
  - vm_compute. reflexivity.
  - reflexivity.
  - vm_compute. reflexivity.
  - reflexivity.
  - reflexivity.
  - reflexivity.
Defined.

Lemma result_that_is_not_an_object_witness :
  let run := run0 w_info_null_result in
  errors (out run.2) = [error_of (rt:=scripted) "claim_loop" (no_get PNone) None]
  /\ claimed_tiers (out run.2) = None
  /\ claim_responses (out run.2) = None
  /\ length (posted run.2) = 2%nat.
Proof.
  apply (result_that_is_not_an_object (rt:=scripted)
           cred0 cfg0 w_info_null_result _ (run0 w_info_null_result).2 200
           (PDict [("result", PNone)]) PNone).
  - vm_compute. reflexivity.
  - vm_compute. reflexivity.
  - reflexivity.
  - vm_compute. reflexivity.
  - reflexivity.
  - reflexivity.
Defined.

Lemma undecodable_login_body_witness :
  exists o s,
    login_and_claim (rt:=scripted) cred0 cfg0 w_login_garbled = (Ok o, s)
    /\ errors o
       = [error_of (rt:=scripted) "login" (Exn ValueError "Missing token/head") None]
    /\ login_response o = Some (PDict [("_raw", PStr "<html>")])
    /\ info_status_code o = None
    /\ length (posted s) = 1%nat.
Proof.
  apply (undecodable_login_body (rt:=scripted) cred0 cfg0 w_login_garbled
           (Response 200 "OK" BASE "<html>" None)); reflexivity.
Defined.

Lemma missing_member_id_is_sent_as_None_witness :
  headers (authorized (rt:=scripted) cfg0 login_body_no_uid) !! "memberInfoId"
  = Some "None".
Proof.
  apply (missing_member_id_is_sent_as_None (rt:=scripted) cred0 cfg0 w_no_uid
           (Response 200 "OK" BASE "{}" (Some login_body_no_uid))).
  - reflexivity.
  - vm_compute. reflexivity.
  - reflexivity.
Defined.

Lemma error_of_raising_call_carries_earlier_response_witness :
  error_of (rt:=scripted) "claim_3" (Exn RequestException "read timed out")
    (Some (PInt 2))
  ∈ errors (out (run0 w_mixed).2).
Proof.
  apply (error_of_raising_call_carries_earlier_response (rt:=scripted)
           cred0 cfg0 w_mixed _ (run0 w_mixed).2
           [(PInt 1, reply 200 (PInt 1)); (PInt 2, reply 500 (PInt 2))]
           (PInt 3) (Exn RequestException "read timed out") []
           (Response 500 "OK" BASE "{}" (Some (PInt 2)))).
  - vm_compute. reflexivity.
  - vm_compute. reflexivity.
  - reflexivity.
Defined.

Lemma report_names_each_account_once_witness :
  exists results,
    main_results (rt:=scripted) cfg0
      [(cred0, w_login_403); (Credential "09291078442" "586", w_pending_and_complete)]
      [1; 0]%nat
    = Ok results
    /\ phone <$> results ≡ₚ ["09582811870"; "09291078442"].
Proof.
  destruct (report_names_each_account_once (rt:=scripted) cfg0
              [(cred0, w_login_403);
               (Credential "09291078442" "586", w_pending_and_complete)] [1; 0]%nat)
    as (results & Hmain & Hphones & _).
  - apply perm_swap.
  - exists results. split; [exact Hmain|exact Hphones].
Defined.

Lemma tier_list_that_cannot_be_iterated_witness :
  let run := run0 w_info_null_list in
  errors (out run.2)
  = [error_of (rt:=scripted) "claim_loop"
       (Exn TypeError "'NoneType' object is not iterable") None]
  /\ claimed_tiers (out run.2) = None
  /\ claim_responses (out run.2) = None
  /\ length (posted run.2) = 2%nat.
Proof.
  apply (tier_list_that_cannot_be_iterated (rt:=scripted)
           cred0 cfg0 w_info_null_list _ (run0 w_info_null_list).2 200
           (PDict [("result", PDict [("memberReadingRewardDetailVoList", PNone)])])
           (PDict [("memberReadingRewardDetailVoList", PNone)]) PNone).
  - vm_compute. reflexivity.
  - vm_compute. reflexivity.
  - reflexivity.
  - vm_compute. reflexivity.
  - reflexivity.
  - reflexivity.
  - reflexivity.
Defined.

Lemma malformed_tier_stops_the_loop_witness :
  let o := out (run0 w_malformed_tier).2 in
  let rs := [(PInt 1, reply 200 PNone)] in
  rs.*1 = eligible [tier 1 "complete"]
  /\ claimed_tiers o = None
  /\ errors o
     = claim_errors (rt:=scripted) None rs
       ++ [error_of (rt:=scripted) "claim_loop" (no_get (PInt 7)) None].
Proof.
  apply (malformed_tier_stops_the_loop (rt:=scripted)
           cred0 cfg0 w_malformed_tier _ (run0 w_malformed_tier).2 200
           (info_body [tier 1 "complete"; PInt 7; tier 3 "complete"])
           [tier 1 "complete"] (PInt 7) [tier 3 "complete"]).
  - vm_compute. reflexivity.
  - vm_compute. reflexivity.
  - reflexivity.
  - vm_compute. reflexivity.
  - reflexivity.
  - reflexivity.
  - reflexivity.
  - vm_compute. reflexivity.
  - reflexivity.
Defined.
